(** * drun: the descriptor loader and the command synthesizer of [main.go]

    A shallow embedding of [getContainerInfo], [generateRunCommand],
    [shouldSkipEnv], [confirmExecution] and [main], and the properties
    their specification states about them.

    Go strings are byte strings ([string]); a Go slice is a [list]; the
    [map[string][]Port] of the port bindings is a [gmap].  A [for ... range]
    over a Go map visits every entry once, in an order the runtime picks
    anew for each loop, so the synthesizer is modelled twice: as a function
    that receives the order of that loop, and as the relation between a
    descriptor and every string some order yields. *)

From Stdlib Require Import ZArith List Ascii String Permutation.
From stdpp Require Import gmap strings list fin_maps.

Local Open Scope string_scope.
Local Open Scope list_scope.

(** ** The [strings] and [fmt] functions the program calls *)

(** [s[n:]] *)
Definition sliceFrom (s : string) (n : nat) : string :=
  substring n (String.length s - n) s.

(** [strings.HasPrefix]: [len(s) >= len(prefix) && s[:len(prefix)] == prefix] *)
Definition HasPrefix (s prefix : string) : bool :=
  (String.length prefix <=? String.length s)%nat
  && String.eqb (substring 0 (String.length prefix) s) prefix.

(** [strings.TrimPrefix] *)
Definition TrimPrefix (s prefix : string) : string :=
  if HasPrefix s prefix then sliceFrom s (String.length prefix) else s.

(** [strings.Join]: no separator before the first element. *)
Definition Join (elems : list string) (sep : string) : string :=
  match elems with
  | [] => ""
  | e :: rest => foldl (fun b s => b +:+ sep +:+ s) e rest
  end.

(** [fmt.Sprintf("%s:%s", a, b)] *)
Definition Sprintf_s_colon_s (a b : string) : string := a +:+ ":" +:+ b.

(** ** Data model *)

Module Port.
Record t := mk { HostIP : string; HostPort : string }.
End Port.

Module RestartPolicy.
Record t := mk { Name : string; MaximumRetryCount : Z }.
End RestartPolicy.

Module NetworkInfo.
Record t := mk { NetworkID : string }.
End NetworkInfo.

Module Config.
Record t := mk { Image : string; Cmd : list string; Env : list string }.
End Config.

Module HostConfig.
Record t := mk {
  Binds : list string;
  PortBindings : gmap string (list Port.t);
  RestartPolicy : RestartPolicy.t;
  NetworkMode : string;
  Privileged : bool;
  PublishAllPorts : bool
}.
End HostConfig.

Module NetworkSettings.
Record t := mk { Networks : gmap string NetworkInfo.t }.
End NetworkSettings.

Module ContainerInfo.
Record t := mk {
  Config : Config.t;
  HostConfig : HostConfig.t;
  NetworkSettings : NetworkSettings.t;
  Name : string
}.
End ContainerInfo.

(** The entries of a Go map in the order one [range] loop visits them:
    each entry once, in any order. *)
Definition rangeOrder {V} (m : gmap string V) (kvs : list (string * V)) : Prop :=
  kvs ≡ₚ map_to_list m.

(** ** The command synthesizer *)

Definition skipPatterns : list string := ["PATH="; "HOSTNAME="; "HOME="; "TERM="].

(** The loop returns at the first pattern that is a prefix of [env]. *)
Fixpoint shouldSkipEnv_loop (patterns : list string) (env : string) : bool :=
  match patterns with
  | [] => false
  | pattern :: rest =>
      if HasPrefix env pattern then true else shouldSkipEnv_loop rest env
  end.

Definition shouldSkipEnv (env : string) : bool :=
  shouldSkipEnv_loop skipPatterns env.

(** The body of [generateRunCommand] up to the last line: the slice [parts]
    is threaded through the statements, [order] is the order in which the
    loop over [PortBindings] visits the map. *)
Definition generateRunCommand_parts
    (order : list (string * list Port.t)) (info : ContainerInfo.t) : list string :=
  let parts := [] in
  let parts := parts ++ ["docker"; "run"; "-d"] in
  let containerName := TrimPrefix info.(ContainerInfo.Name) "/" in
  let parts := parts ++ ["--name"; containerName] in
  let restart := info.(ContainerInfo.HostConfig).(HostConfig.RestartPolicy) in
  let parts :=
    if negb (String.eqb restart.(RestartPolicy.Name) "")
    then parts ++ ["--restart"; restart.(RestartPolicy.Name)]
    else parts in
  let parts :=
    foldl (fun parts bind => parts ++ ["-v"; bind])
          parts info.(ContainerInfo.HostConfig).(HostConfig.Binds) in
  let parts :=
    foldl (fun parts '(port, bindings) =>
             foldl (fun parts binding =>
                      if negb (String.eqb binding.(Port.HostPort) "")
                      then
                        let hostPort := binding.(Port.HostPort) in
                        parts ++ ["-p"; Sprintf_s_colon_s hostPort port]
                      else parts)
                   parts bindings)
          parts order in
  let parts :=
    foldl (fun parts env =>
             if negb (shouldSkipEnv env) then parts ++ ["-e"; env] else parts)
          parts info.(ContainerInfo.Config).(Config.Env) in
  let parts :=
    if info.(ContainerInfo.HostConfig).(HostConfig.Privileged)
    then parts ++ ["--privileged"] else parts in
  let parts :=
    if info.(ContainerInfo.HostConfig).(HostConfig.PublishAllPorts)
    then parts ++ ["-P"] else parts in
  let mode := info.(ContainerInfo.HostConfig).(HostConfig.NetworkMode) in
  let parts :=
    if negb (String.eqb mode "") && negb (String.eqb mode "default")
    then parts ++ ["--network"; mode] else parts in
  let parts := parts ++ [info.(ContainerInfo.Config).(Config.Image)] in
  let parts :=
    if (0 <? length info.(ContainerInfo.Config).(Config.Cmd))%nat
    then parts ++ info.(ContainerInfo.Config).(Config.Cmd) else parts in
  parts.

(** [generateRunCommand] when the map loop visits the entries in [order]. *)
Definition generateRunCommand_in
    (order : list (string * list Port.t)) (info : ContainerInfo.t) : string :=
  Join (generateRunCommand_parts order info) " ".

(** [generateRunCommand info] can return [out]. *)
Inductive generateRunCommand (info : ContainerInfo.t) : string -> Prop :=
| generateRunCommand_ranges order :
    rangeOrder info.(ContainerInfo.HostConfig).(HostConfig.PortBindings) order ->
    generateRunCommand info (generateRunCommand_in order info).

(** The descriptor of the end-to-end example; the example leaves the host
    interface, the retry count and the network settings open. *)
Definition appDescriptorWith (hostIP : string) (retries : Z)
    (networks : gmap string NetworkInfo.t) : ContainerInfo.t :=
  ContainerInfo.mk
    (Config.mk "app:latest" ["serve"] ["PATH=/usr/bin"; "KEY=1"])
    (HostConfig.mk ["/data:/data"]
       {[ "80/tcp" := [Port.mk hostIP "8080"] ]}
       (RestartPolicy.mk "always" retries)
       "default" false false)
    (NetworkSettings.mk networks)
    "/app".

Definition appDescriptor : ContainerInfo.t := appDescriptorWith "" 0 ∅.

(** ** The loader, the confirmation and the pipeline of [main] *)

(** A Go [error], by the text of its [Error()]; [None] is [nil]. *)
Definition error : Type := string.

(** [fmt.Errorf(msg + ": %v", err)] *)
Definition Errorf_v (msg : string) (err : error) : error := msg +:+ ": " +:+ err.

(** [bufio.Reader.ReadString(delim)] on a stream that delivers the bytes
    [input] and then ends with [ends] ([io.EOF] or an I/O error): the bytes
    up to and including the first [delim]; when the stream ends before a
    [delim], the bytes read so far and the error. *)
Fixpoint ReadString (input : string) (ends : error) (delim : ascii)
  : string * option error :=
  match input with
  | EmptyString => ("", Some ends)
  | String c rest =>
      if Ascii.eqb c delim then (String c "", None)
      else let '(line, err) := ReadString rest ends delim in (String c line, err)
  end.

(** What the pipeline does to the outside world: the external commands it
    starts, and the confirmation prompt it shows before it reads the answer.
    The other lines the program prints change nothing of its control flow
    and are left out. *)
Inductive Event :=
| Exec (argv : list string)
| Prompt.

Section Pipeline.
(** The outside world: the daemon and everything the external commands
    act on. *)
Context {W : Type}.
(** [exec.Command(argv...)] run to its end: the standard output and the
    error of [Run]/[Output]. *)
Variable exec_Command : list string -> W -> (string * option error) * W.
(** [json.Unmarshal(output, &containers)]. *)
Variable json_Unmarshal : string -> list ContainerInfo.t + error.
(** [strings.ToLower] and [strings.TrimSpace] (both follow Unicode). *)
Variable strings_ToLower : string -> string.
Variable strings_TrimSpace : string -> string.
(** The order the runtime picks for the loop over a map. *)
Variable mapRange : gmap string (list Port.t) -> list (string * list Port.t).
Variable os_Args : list string.
(** The bytes on standard input and the error that ends them. *)
Variable os_Stdin : string * error.

Record Run := mkRun { world : W; events : list Event }.

Definition M (A : Type) : Type := Run -> A * Run.
Definition ret {A} (a : A) : M A := fun r => (a, r).
Definition bind {A B} (m : M A) (k : A -> M B) : M B :=
  fun r => let '(a, r') := m r in k a r'.
Definition emit (e : Event) : M unit :=
  fun r => (tt, mkRun r.(world) (r.(events) ++ [e])).
Definition command (argv : list string) : M (string * option error) :=
  fun r =>
    let '(res, w') := exec_Command argv r.(world) in
    (res, mkRun w' (r.(events) ++ [Exec argv])).

Notation "'let*' x := m 'in' k" := (bind m (fun x => k))
  (at level 10, x name, m at level 100, k at level 200).

Definition getContainerInfo (containerName : string)
  : M (ContainerInfo.t + error) :=
  let* res := command ["docker"; "inspect"; containerName] in
  match res.2 with
  | Some err => ret (inr (Errorf_v "failed to inspect container" err))
  | None =>
      match json_Unmarshal res.1 with
      | inr err => ret (inr (Errorf_v "failed to parse container info" err))
      | inl containers =>
          match containers with
          | [] => ret (inr "container not found")
          | first :: _ => ret (inl first)
          end
      end
  end.

Definition stopAndRemoveContainer (containerName : string) : M (option error) :=
  let* res := command ["docker"; "stop"; containerName] in
  match res.2 with
  | Some err => ret (Some (Errorf_v "failed to stop container" err))
  | None =>
      let* res := command ["docker"; "rm"; containerName] in
      match res.2 with
      | Some err => ret (Some (Errorf_v "failed to remove container" err))
      | None => ret None
      end
  end.

Definition pullLatestImage (imageName : string) : M (option error) :=
  let* res := command ["docker"; "pull"; imageName] in
  match res.2 with
  | Some err => ret (Some (Errorf_v "failed to pull image" err))
  | None => ret None
  end.

Definition confirmExecution : M bool :=
  let* _ := emit Prompt in
  let '(response, err) := ReadString os_Stdin.1 os_Stdin.2 "010"%char in
  match err with
  | Some _ => ret false
  | None =>
      let response := strings_TrimSpace (strings_ToLower response) in
      ret (String.eqb response "y" || String.eqb response "yes")
  end.

Definition executeCommand (cmd : string) : M (option error) :=
  let* res := command ["sh"; "-c"; cmd] in
  ret res.2.

(** [main], to the exit status of the process: 1 after [log.Fatal] and
    [os.Exit(1)], 0 when [main] returns. *)
Definition main : M Z :=
  if (length os_Args <? 2)%nat then ret 1%Z
  else
    let containerName := nth 1 os_Args "" in
    let* loaded := getContainerInfo containerName in
    match loaded with
    | inr _ => ret 1%Z
    | inl containerInfo =>
        let imageName := containerInfo.(ContainerInfo.Config).(Config.Image) in
        let* err := stopAndRemoveContainer containerName in
        match err with
        | Some _ => ret 1%Z
        | None =>
            let* err := pullLatestImage imageName in
            match err with
            | Some _ => ret 1%Z
            | None =>
                let runCommand :=
                  generateRunCommand_in
                    (mapRange containerInfo.(ContainerInfo.HostConfig).(HostConfig.PortBindings))
                    containerInfo in
                let* confirmed := confirmExecution in
                if negb confirmed then ret 0%Z
                else
                  let* err := executeCommand runCommand in
                  match err with
                  | Some _ => ret 1%Z
                  | None => ret 0%Z
                  end
            end
        end
    end.

(** One run of the program in the world [w]. *)
Definition runMain (w : W) : Z * Run := main (mkRun w []).
End Pipeline.

(** [strings.ToLower] and [strings.TrimSpace] on ASCII text, where they
    need no Unicode table: the letters [A]-[Z] are lowered, and the bytes
    tab, line feed, vertical tab, form feed, carriage return and space are
    trimmed at both ends. *)
Definition asciiLower (c : ascii) : ascii :=
  let n := nat_of_ascii c in
  if (65 <=? n)%nat && (n <=? 90)%nat then ascii_of_nat (n + 32) else c.

Fixpoint asciiToLower (s : string) : string :=
  match s with
  | EmptyString => EmptyString
  | String c rest => String (asciiLower c) (asciiToLower rest)
  end.

Definition asciiSpace (c : ascii) : bool :=
  let n := nat_of_ascii c in
  ((9 <=? n)%nat && (n <=? 13)%nat) || (n =? 32)%nat.

Fixpoint trimLeft (s : string) : string :=
  match s with
  | EmptyString => EmptyString
  | String c rest => if asciiSpace c then trimLeft rest else s
  end.

Fixpoint trimRight (s : string) : string :=
  match s with
  | EmptyString => EmptyString
  | String c rest =>
      match trimRight rest with
      | EmptyString => if asciiSpace c then EmptyString else String c EmptyString
      | kept => String c kept
      end
  end.

Definition asciiTrimSpace (s : string) : string := trimRight (trimLeft s).

(** ** The specification's view of the synthesized tokens *)

(** The keys of the environment deny-list. *)
Definition denyList : list string := ["PATH"; "HOSTNAME"; "HOME"; "TERM"].

(** A name with one leading path separator removed. *)
Definition stripLeadingSeparator (name : string) : string :=
  match name with
  | String "/"%char rest => rest
  | _ => name
  end.

Definition restartFlags (name : string) : list string :=
  if String.eqb name "" then [] else ["--restart"; name].

Definition mountFlags (binds : list string) : list string :=
  flat_map (fun bind => ["-v"; bind]) binds.

(** The publish flags of one host binding of the container port [port]. *)
Definition publishFlag (port : string) (binding : Port.t) : list string :=
  if String.eqb binding.(Port.HostPort) "" then []
  else ["-p"; binding.(Port.HostPort) +:+ ":" +:+ port].

Definition publishFlags (order : list (string * list Port.t)) : list string :=
  flat_map (fun entry => flat_map (publishFlag entry.1) entry.2) order.

Definition envFlags (env : list string) : list string :=
  flat_map (fun e => ["-e"; e]) (List.filter (fun e => negb (shouldSkipEnv e)) env).

Definition networkFlags (mode : string) : list string :=
  if String.eqb mode "" || String.eqb mode "default" then []
  else ["--network"; mode].

(** Descriptors that differ in one field. *)
Definition withName (info : ContainerInfo.t) (name : string) : ContainerInfo.t :=
  ContainerInfo.mk info.(ContainerInfo.Config) info.(ContainerInfo.HostConfig)
    info.(ContainerInfo.NetworkSettings) name.

Definition withEnv (info : ContainerInfo.t) (env : list string) : ContainerInfo.t :=
  let c := info.(ContainerInfo.Config) in
  ContainerInfo.mk (Config.mk c.(Config.Image) c.(Config.Cmd) env)
    info.(ContainerInfo.HostConfig) info.(ContainerInfo.NetworkSettings)
    info.(ContainerInfo.Name).

Definition withHostConfig (info : ContainerInfo.t) (h : HostConfig.t) : ContainerInfo.t :=
  ContainerInfo.mk info.(ContainerInfo.Config) h
    info.(ContainerInfo.NetworkSettings) info.(ContainerInfo.Name).

Definition withPortBindings (info : ContainerInfo.t)
    (ports : gmap string (list Port.t)) : ContainerInfo.t :=
  let h := info.(ContainerInfo.HostConfig) in
  withHostConfig info
    (HostConfig.mk h.(HostConfig.Binds) ports h.(HostConfig.RestartPolicy)
       h.(HostConfig.NetworkMode) h.(HostConfig.Privileged)
       h.(HostConfig.PublishAllPorts)).

Definition withRestartPolicy (info : ContainerInfo.t)
    (policy : RestartPolicy.t) : ContainerInfo.t :=
  let h := info.(ContainerInfo.HostConfig) in
  withHostConfig info
    (HostConfig.mk h.(HostConfig.Binds) h.(HostConfig.PortBindings) policy
       h.(HostConfig.NetworkMode) h.(HostConfig.Privileged)
       h.(HostConfig.PublishAllPorts)).

Definition withNetworkMode (info : ContainerInfo.t) (mode : string) : ContainerInfo.t :=
  let h := info.(ContainerInfo.HostConfig) in
  withHostConfig info
    (HostConfig.mk h.(HostConfig.Binds) h.(HostConfig.PortBindings)
       h.(HostConfig.RestartPolicy) mode h.(HostConfig.Privileged)
       h.(HostConfig.PublishAllPorts)).

(** A descriptor with two published container ports. *)
Definition twoPortBindings : list (string * list Port.t) :=
  [("80/tcp", [Port.mk "" "8080"]); ("443/tcp", [Port.mk "" "8443"])].

Definition twoPortDescriptor : ContainerInfo.t :=
  ContainerInfo.mk
    (Config.mk "web:1" [] [])
    (HostConfig.mk [] (list_to_map twoPortBindings)
       (RestartPolicy.mk "" 0) "" false false)
    (NetworkSettings.mk ∅)
    "/web".

(** Some host binding of the list has a host port. *)
Definition publishes (bindings : list Port.t) : bool :=
  existsb (fun b => negb (String.eqb b.(Port.HostPort) "")) bindings.

(** A descriptor with two container ports of which one is published. *)
Definition onePublishedPortDescriptor : ContainerInfo.t :=
  ContainerInfo.mk
    (Config.mk "dns:2" [] [])
    (HostConfig.mk []
       (list_to_map [("80/tcp", [Port.mk "" "8080"]); ("53/udp", [Port.mk "" ""])])
       (RestartPolicy.mk "" 0) "" false false)
    (NetworkSettings.mk ∅)
    "/dns".

(** The host ports of the map: what is left of the port bindings when the
    host interfaces are dropped. *)
Definition hostPorts (ports : gmap string (list Port.t)) : gmap string (list string) :=
  fmap (M := gmap string) (fmap (M := list) Port.HostPort) ports.

(** Two descriptors that agree on every field the synthesizer reads: they
    can differ in the network settings, in the host interfaces of the port
    bindings and in the retry count of the restart policy. *)
Definition sameSynthesisInputs (a b : ContainerInfo.t) : Prop :=
  a.(ContainerInfo.Name) = b.(ContainerInfo.Name)
  /\ a.(ContainerInfo.Config) = b.(ContainerInfo.Config)
  /\ a.(ContainerInfo.HostConfig).(HostConfig.Binds)
     = b.(ContainerInfo.HostConfig).(HostConfig.Binds)
  /\ hostPorts a.(ContainerInfo.HostConfig).(HostConfig.PortBindings)
     = hostPorts b.(ContainerInfo.HostConfig).(HostConfig.PortBindings)
  /\ a.(ContainerInfo.HostConfig).(HostConfig.RestartPolicy).(RestartPolicy.Name)
     = b.(ContainerInfo.HostConfig).(HostConfig.RestartPolicy).(RestartPolicy.Name)
  /\ a.(ContainerInfo.HostConfig).(HostConfig.NetworkMode)
     = b.(ContainerInfo.HostConfig).(HostConfig.NetworkMode)
  /\ a.(ContainerInfo.HostConfig).(HostConfig.Privileged)
     = b.(ContainerInfo.HostConfig).(HostConfig.Privileged)
  /\ a.(ContainerInfo.HostConfig).(HostConfig.PublishAllPorts)
     = b.(ContainerInfo.HostConfig).(HostConfig.PublishAllPorts).

(** The end-to-end descriptor with another host interface, another retry
    count and a network attached. *)
Definition appDescriptorElsewhere : ContainerInfo.t :=
  appDescriptorWith "0.0.0.0" 5 {[ "bridge" := NetworkInfo.mk "4f2a" ]}.

(** An entry of the map without the host interfaces. *)
Local Abbreviation entryHostPorts :=
  (prod_map (A := string) id (fmap (M := list) Port.HostPort)).

(** The byte [c] occurs in [s]. *)
Fixpoint hasByte (s : string) (c : ascii) : bool :=
  match s with
  | EmptyString => false
  | String d rest => Ascii.eqb d c || hasByte rest c
  end.

Definition newline : ascii := "010"%char.

(** Standard input starts with a full line that, trimmed and lowered, is
    [y] or [yes]. *)
Definition answersYes (strings_ToLower strings_TrimSpace : string -> string)
    (os_Stdin : string * error) : Prop :=
  exists line rest,
    os_Stdin.1 = line +:+ String newline rest
    /\ hasByte line newline = false
    /\ (strings_TrimSpace (strings_ToLower (line +:+ String newline "")) = "y"
        \/ strings_TrimSpace (strings_ToLower (line +:+ String newline "")) = "yes").

(** A world for the examples: every external command succeeds, and the
    daemon's answer decodes to the containers [found]. *)
Definition obliging (argv : list string) (w : unit) : (string * option error) * unit :=
  (("", None), tt).

Definition decodesTo (found : list ContainerInfo.t) (output : string)
  : list ContainerInfo.t + error := inl found.

Definition anyOrder (ports : gmap string (list Port.t)) : list (string * list Port.t) :=
  map_to_list ports.

(** The tokens before the restart flag, and the tokens after the
    environment flags. *)
Definition generateRunCommand_prefix (info : ContainerInfo.t) : list string :=
  ["docker"; "run"; "-d"; "--name";
   stripLeadingSeparator info.(ContainerInfo.Name)].

Definition generateRunCommand_suffix (info : ContainerInfo.t) : list string :=
  (if info.(ContainerInfo.HostConfig).(HostConfig.Privileged)
   then ["--privileged"] else [])
  ++ (if info.(ContainerInfo.HostConfig).(HostConfig.PublishAllPorts)
      then ["-P"] else [])
  ++ networkFlags info.(ContainerInfo.HostConfig).(HostConfig.NetworkMode)
  ++ info.(ContainerInfo.Config).(Config.Image)
     :: info.(ContainerInfo.Config).(Config.Cmd).

(** A descriptor with another trailing command. *)
Definition withCmd (info : ContainerInfo.t) (cmd : list string) : ContainerInfo.t :=
  let c := info.(ContainerInfo.Config) in
  ContainerInfo.mk (Config.mk c.(Config.Image) cmd c.(Config.Env))
    info.(ContainerInfo.HostConfig) info.(ContainerInfo.NetworkSettings)
    info.(ContainerInfo.Name).

(** A descriptor that has only injected environment entries and an
    unpublished port. *)
Definition bareDescriptor : ContainerInfo.t :=
  ContainerInfo.mk
    (Config.mk "alpine:3" [] ["PATH=/bin"; "HOME=/root"])
    (HostConfig.mk [] {[ "53/udp" := [Port.mk "" ""] ]}
       (RestartPolicy.mk "" 3) "default" false false)
    (NetworkSettings.mk ∅)
    "/bare".

(** The bytes of all tokens together. *)
Definition totalLength (tokens : list string) : nat :=
  foldr (fun s n => String.length s + n) 0 tokens.

(** A world in which the docker subcommand [verb] fails and every other
    command succeeds. *)
Definition failingAt (verb : string) (argv : list string) (w : unit)
  : (string * option error) * unit :=
  if decide (argv !! 1%nat = Some verb)
  then (("", Some "exit status 1"), tt)
  else (("", None), tt).

(** A string of ASCII white space. *)
Fixpoint allSpace (s : string) : bool :=
  match s with
  | EmptyString => true
  | String c rest => asciiSpace c && allSpace rest
  end.

Section Outcomes.
Context {W : Type}.
Variable exec_Command : list string -> W -> (string * option error) * W.
Variable json_Unmarshal : string -> list ContainerInfo.t + error.
Variable strings_ToLower strings_TrimSpace : string -> string.
Variable mapRange : gmap string (list Port.t) -> list (string * list Port.t).
Variable os_Args : list string.
Variable os_Stdin : string * error.

(** The ways a run of [main] from the world [w] can end, stage by stage:
    the exit status, the world it leaves and the events in their order. *)
Inductive Outcome (w : W) : Z * Run (W := W) -> Prop :=
| Outcome_usage :
    length os_Args < 2 ->
    Outcome w (1%Z, mkRun w [])
| Outcome_inspect_failed out1 e w1 :
    2 <= length os_Args ->
    exec_Command ["docker"; "inspect"; nth 1 os_Args ""] w = ((out1, Some e), w1) ->
    Outcome w (1%Z, mkRun w1 [Exec ["docker"; "inspect"; nth 1 os_Args ""]])
| Outcome_decode_failed out1 e w1 :
    2 <= length os_Args ->
    exec_Command ["docker"; "inspect"; nth 1 os_Args ""] w = ((out1, None), w1) ->
    json_Unmarshal out1 = inr e ->
    Outcome w (1%Z, mkRun w1 [Exec ["docker"; "inspect"; nth 1 os_Args ""]])
| Outcome_not_found out1 w1 :
    2 <= length os_Args ->
    exec_Command ["docker"; "inspect"; nth 1 os_Args ""] w = ((out1, None), w1) ->
    json_Unmarshal out1 = inl [] ->
    Outcome w (1%Z, mkRun w1 [Exec ["docker"; "inspect"; nth 1 os_Args ""]])
| Outcome_stop_failed out1 w1 info others out2 e w2 :
    2 <= length os_Args ->
    exec_Command ["docker"; "inspect"; nth 1 os_Args ""] w = ((out1, None), w1) ->
    json_Unmarshal out1 = inl (info :: others) ->
    exec_Command ["docker"; "stop"; nth 1 os_Args ""] w1 = ((out2, Some e), w2) ->
    Outcome w (1%Z, mkRun w2 [Exec ["docker"; "inspect"; nth 1 os_Args ""];
                              Exec ["docker"; "stop"; nth 1 os_Args ""]])
| Outcome_rm_failed out1 w1 info others out2 w2 out3 e w3 :
    2 <= length os_Args ->
    exec_Command ["docker"; "inspect"; nth 1 os_Args ""] w = ((out1, None), w1) ->
    json_Unmarshal out1 = inl (info :: others) ->
    exec_Command ["docker"; "stop"; nth 1 os_Args ""] w1 = ((out2, None), w2) ->
    exec_Command ["docker"; "rm"; nth 1 os_Args ""] w2 = ((out3, Some e), w3) ->
    Outcome w (1%Z, mkRun w3 [Exec ["docker"; "inspect"; nth 1 os_Args ""];
                              Exec ["docker"; "stop"; nth 1 os_Args ""];
                              Exec ["docker"; "rm"; nth 1 os_Args ""]])
| Outcome_pull_failed out1 w1 info others out2 w2 out3 w3 out4 e w4 :
    2 <= length os_Args ->
    exec_Command ["docker"; "inspect"; nth 1 os_Args ""] w = ((out1, None), w1) ->
    json_Unmarshal out1 = inl (info :: others) ->
    exec_Command ["docker"; "stop"; nth 1 os_Args ""] w1 = ((out2, None), w2) ->
    exec_Command ["docker"; "rm"; nth 1 os_Args ""] w2 = ((out3, None), w3) ->
    exec_Command ["docker"; "pull"; info.(ContainerInfo.Config).(Config.Image)] w3
    = ((out4, Some e), w4) ->
    Outcome w (1%Z, mkRun w4 [Exec ["docker"; "inspect"; nth 1 os_Args ""];
                              Exec ["docker"; "stop"; nth 1 os_Args ""];
                              Exec ["docker"; "rm"; nth 1 os_Args ""];
                              Exec ["docker"; "pull";
                                    info.(ContainerInfo.Config).(Config.Image)]])
| Outcome_declined out1 w1 info others out2 w2 out3 w3 out4 w4 :
    2 <= length os_Args ->
    exec_Command ["docker"; "inspect"; nth 1 os_Args ""] w = ((out1, None), w1) ->
    json_Unmarshal out1 = inl (info :: others) ->
    exec_Command ["docker"; "stop"; nth 1 os_Args ""] w1 = ((out2, None), w2) ->
    exec_Command ["docker"; "rm"; nth 1 os_Args ""] w2 = ((out3, None), w3) ->
    exec_Command ["docker"; "pull"; info.(ContainerInfo.Config).(Config.Image)] w3
    = ((out4, None), w4) ->
    ~ answersYes strings_ToLower strings_TrimSpace os_Stdin ->
    Outcome w (0%Z, mkRun w4 [Exec ["docker"; "inspect"; nth 1 os_Args ""];
                              Exec ["docker"; "stop"; nth 1 os_Args ""];
                              Exec ["docker"; "rm"; nth 1 os_Args ""];
                              Exec ["docker"; "pull";
                                    info.(ContainerInfo.Config).(Config.Image)];
                              Prompt])
| Outcome_executed out1 w1 info others out2 w2 out3 w3 out4 w4 out5 err w5 :
    2 <= length os_Args ->
    exec_Command ["docker"; "inspect"; nth 1 os_Args ""] w = ((out1, None), w1) ->
    json_Unmarshal out1 = inl (info :: others) ->
    exec_Command ["docker"; "stop"; nth 1 os_Args ""] w1 = ((out2, None), w2) ->
    exec_Command ["docker"; "rm"; nth 1 os_Args ""] w2 = ((out3, None), w3) ->
    exec_Command ["docker"; "pull"; info.(ContainerInfo.Config).(Config.Image)] w3
    = ((out4, None), w4) ->
    answersYes strings_ToLower strings_TrimSpace os_Stdin ->
    exec_Command
      ["sh"; "-c";
       generateRunCommand_in
         (mapRange info.(ContainerInfo.HostConfig).(HostConfig.PortBindings)) info]
      w4
    = ((out5, err), w5) ->
    Outcome w (match err with Some _ => 1%Z | None => 0%Z end,
               mkRun w5 [Exec ["docker"; "inspect"; nth 1 os_Args ""];
                         Exec ["docker"; "stop"; nth 1 os_Args ""];
                         Exec ["docker"; "rm"; nth 1 os_Args ""];
                         Exec ["docker"; "pull";
                               info.(ContainerInfo.Config).(Config.Image)];
                         Prompt;
                         Exec ["sh"; "-c";
                               generateRunCommand_in
                                 (mapRange
                                    info.(ContainerInfo.HostConfig).(HostConfig.PortBindings))
                                 info]]).
End Outcomes.

(** Tokens as they stand in the command, each after one space. *)
Definition spaced (tokens : list string) : string :=
  foldr (fun token text => " " +:+ token +:+ text) "" tokens.




(** The descriptor with the two published ports, with other host
    interfaces, another retry count and a network attached. *)
Definition twoPortBindingsElsewhere : list (string * list Port.t) :=
  [("80/tcp", [Port.mk "10.0.0.1" "8080"]); ("443/tcp", [Port.mk "10.0.0.1" "8443"])].

Definition twoPortDescriptorElsewhere : ContainerInfo.t :=
  ContainerInfo.mk
    (Config.mk "web:1" [] [])
    (HostConfig.mk [] (list_to_map twoPortBindingsElsewhere)
       (RestartPolicy.mk "" 7) "" false false)
    (NetworkSettings.mk {[ "bridge" := NetworkInfo.mk "4f2a" ]})
    "/web".

(** A world in which every command prints an empty JSON array and exits
    with status 1. *)
Definition refusing (argv : list string) (w : unit) : (string * option error) * unit :=
  (("[]", Some "exit status 1"), tt).

(** ** Lemmas on the string functions *)

Lemma substring_whole (s : string) : substring 0 (String.length s) s = s.
Proof. induction s as [|c s IH]; simpl; [done | by rewrite IH]. Qed.

Lemma substring_0_app (p t : string) :
  substring 0 (String.length p) (p +:+ t) = p.
Proof.
  induction p as [|c p IH]; simpl.
  - by destruct t.
  - by rewrite IH.
Qed.

Lemma substring_0_split (n : nat) (s : string) :
  n <= String.length s -> exists t, s = substring 0 n s +:+ t.
Proof.
  revert s. induction n as [|n IH]; intros s Hn.
  - exists s. by destruct s.
  - destruct s as [|c s]; simpl in *; [lia |].
    destruct (IH s) as [t Ht]; [lia |].
    exists t. change (String c s = String c (substring 0 n s +:+ t)).
    by rewrite <- Ht.
Qed.

Lemma length_append (p t : string) :
  String.length (p +:+ t) = String.length p + String.length t.
Proof. induction p as [|c p IH]; simpl; [done | by rewrite IH]. Qed.

Lemma HasPrefix_spec (s p : string) :
  HasPrefix s p = true <-> exists t, s = p +:+ t.
Proof.
  unfold HasPrefix. rewrite andb_true_iff, Nat.leb_le, String.eqb_eq. split.
  - intros [Hlen Hsub].
    destruct (substring_0_split _ _ Hlen) as [t Ht].
    exists t. by rewrite <- Hsub at 1.
  - intros [t ->]. split.
    + rewrite length_append. lia.
    + apply substring_0_app.
Qed.

Lemma HasPrefix_false (s p : string) :
  HasPrefix s p = false <-> ~ exists t, s = p +:+ t.
Proof.
  rewrite <- HasPrefix_spec. destruct (HasPrefix s p); split; done.
Qed.

Lemma TrimPrefix_separator (name : string) :
  TrimPrefix name "/" = stripLeadingSeparator name.
Proof.
  unfold TrimPrefix, HasPrefix, sliceFrom, stripLeadingSeparator.
  destruct name as [|c rest]; [done |]. simpl.
  rewrite Nat.sub_0_r, substring_whole.
  destruct rest; simpl.
  - destruct (Ascii.eqb_spec c "/"); subst; simpl.
    + done.
    + destruct c as [[] [] [] [] [] [] [] []]; try done.
  - destruct (Ascii.eqb_spec c "/"); subst; simpl.
    + done.
    + destruct c as [[] [] [] [] [] [] [] []]; try done.
Qed.

Lemma shouldSkipEnv_spec (e : string) :
  shouldSkipEnv e = true
  <-> exists key value, key ∈ denyList /\ e = key +:+ "=" +:+ value.
Proof.
  unfold shouldSkipEnv, skipPatterns, denyList. simpl. split.
  - destruct (HasPrefix e "PATH=") eqn:H1;
      [apply HasPrefix_spec in H1 as [t ->]; exists "PATH", t; set_solver |].
    destruct (HasPrefix e "HOSTNAME=") eqn:H2;
      [apply HasPrefix_spec in H2 as [t ->]; exists "HOSTNAME", t; set_solver |].
    destruct (HasPrefix e "HOME=") eqn:H3;
      [apply HasPrefix_spec in H3 as [t ->]; exists "HOME", t; set_solver |].
    destruct (HasPrefix e "TERM=") eqn:H4;
      [apply HasPrefix_spec in H4 as [t ->]; exists "TERM", t; set_solver |].
    done.
  - intros (key & value & Hkey & ->).
    assert (exists pattern, pattern ∈ skipPatterns
                            /\ HasPrefix (key +:+ "=" +:+ value) pattern = true)
      as (pattern & Hin & Hp).
    { unfold skipPatterns.
      repeat (apply elem_of_cons in Hkey as [-> | Hkey]);
        [exists "PATH=" | exists "HOSTNAME=" | exists "HOME=" | exists "TERM=" |
         by apply elem_of_nil in Hkey];
        (split; [set_solver | apply HasPrefix_spec; by exists value]). }
    unfold skipPatterns in Hin.
    repeat (apply elem_of_cons in Hin as [-> | Hin]);
      [| | | | by apply elem_of_nil in Hin]; rewrite ?Hp;
      repeat match goal with |- context [if ?b then _ else _] => destruct b end;
      done.
Qed.

(** ** The layout of the synthesized tokens *)

Lemma foldl_mount_flags (binds : list string) (parts : list string) :
  foldl (fun parts bind => parts ++ ["-v"; bind]) parts binds
  = parts ++ mountFlags binds.
Proof.
  revert parts. induction binds as [|b binds IH]; intros parts; simpl.
  - by rewrite app_nil_r.
  - rewrite IH. by rewrite <- app_assoc.
Qed.

Lemma foldl_publish_flag (port : string) (bindings : list Port.t)
    (parts : list string) :
  foldl (fun parts binding =>
           if negb (String.eqb binding.(Port.HostPort) "")
           then
             let hostPort := binding.(Port.HostPort) in
             parts ++ ["-p"; Sprintf_s_colon_s hostPort port]
           else parts)
        parts bindings
  = parts ++ flat_map (publishFlag port) bindings.
Proof.
  revert parts. induction bindings as [|b bindings IH]; intros parts; simpl.
  - by rewrite app_nil_r.
  - rewrite IH. unfold publishFlag at 2, Sprintf_s_colon_s.
    destruct (String.eqb (Port.HostPort b) ""); simpl; [done |].
    by rewrite <- app_assoc.
Qed.

Lemma foldl_publish_flags (order : list (string * list Port.t))
    (parts : list string) :
  foldl (fun parts '(port, bindings) =>
           foldl (fun parts binding =>
                    if negb (String.eqb binding.(Port.HostPort) "")
                    then
                      let hostPort := binding.(Port.HostPort) in
                      parts ++ ["-p"; Sprintf_s_colon_s hostPort port]
                    else parts)
                 parts bindings)
        parts order
  = parts ++ publishFlags order.
Proof.
  revert parts. induction order as [|[port bindings] order IH]; intros parts; simpl.
  - by rewrite app_nil_r.
  - rewrite IH, foldl_publish_flag. by rewrite <- app_assoc.
Qed.

Lemma foldl_env_flags (env : list string) (parts : list string) :
  foldl (fun parts env =>
           if negb (shouldSkipEnv env) then parts ++ ["-e"; env] else parts)
        parts env
  = parts ++ envFlags env.
Proof.
  revert parts. unfold envFlags.
  induction env as [|e env IH]; intros parts; simpl.
  - by rewrite app_nil_r.
  - rewrite IH. destruct (shouldSkipEnv e); simpl; [done |].
    by rewrite <- app_assoc.
Qed.

(** The tokens, segment by segment, in the order the statements append
    them. *)
Lemma generateRunCommand_parts_layout order info :
  generateRunCommand_parts order info
  = ["docker"; "run"; "-d"; "--name";
     stripLeadingSeparator info.(ContainerInfo.Name)]
    ++ restartFlags
         info.(ContainerInfo.HostConfig).(HostConfig.RestartPolicy).(RestartPolicy.Name)
    ++ mountFlags info.(ContainerInfo.HostConfig).(HostConfig.Binds)
    ++ publishFlags order
    ++ envFlags info.(ContainerInfo.Config).(Config.Env)
    ++ (if info.(ContainerInfo.HostConfig).(HostConfig.Privileged)
        then ["--privileged"] else [])
    ++ (if info.(ContainerInfo.HostConfig).(HostConfig.PublishAllPorts)
        then ["-P"] else [])
    ++ networkFlags info.(ContainerInfo.HostConfig).(HostConfig.NetworkMode)
    ++ info.(ContainerInfo.Config).(Config.Image)
       :: info.(ContainerInfo.Config).(Config.Cmd).
Proof.
  unfold generateRunCommand_parts.
  rewrite foldl_mount_flags, foldl_publish_flags, foldl_env_flags.
  rewrite TrimPrefix_separator.
  unfold restartFlags, networkFlags.
  destruct info as [[image cmd env] [binds ports [rname retries] mode priv pub] nets name].
  simpl.
  destruct (String.eqb rname ""), priv, pub, (String.eqb mode ""),
    (String.eqb mode "default"), cmd; simpl;
    rewrite <- ?app_assoc; simpl; rewrite ?app_nil_r; reflexivity.
Qed.


(** Two concatenations of the same segments. *)
Ltac segments := simpl; rewrite <- ?app_assoc; simpl; reflexivity.

Lemma generateRunCommand_iff info out :
  generateRunCommand info out
  <-> exists order,
        rangeOrder info.(ContainerInfo.HostConfig).(HostConfig.PortBindings) order
        /\ out = generateRunCommand_in order info.
Proof.
  split.
  - intros [order Horder]. by exists order.
  - intros (order & Horder & ->). by constructor.
Qed.

Lemma rangeOrder_list_to_map {V} (l order : list (string * V)) :
  NoDup (l.*1) -> order ≡ₚ l -> rangeOrder (list_to_map l) order.
Proof.
  intros Hnd Hperm. unfold rangeOrder.
  by rewrite Hperm, map_to_list_to_map.
Qed.

Lemma rangeOrder_singleton {V} (k : string) (v : V) order :
  rangeOrder ({[ k := v ]} : gmap string V) order <-> order = [(k, v)].
Proof.
  unfold rangeOrder. rewrite map_to_list_singleton.
  apply Permutation_singleton_r.
Qed.

(** Every descriptor has an output: the map has an order. *)
Lemma generateRunCommand_total info : exists out, generateRunCommand info out.
Proof.
  eexists.
  apply (generateRunCommand_ranges info
           (map_to_list info.(ContainerInfo.HostConfig).(HostConfig.PortBindings))).
  unfold rangeOrder. reflexivity.
Qed.

(** ** The command as a string *)

Lemma append_String (c : ascii) (a b : string) :
  String c a +:+ b = String c (a +:+ b).
Proof. reflexivity. Qed.

Lemma append_assoc3 (a b c : string) : (a +:+ b) +:+ c = a +:+ (b +:+ c).
Proof.
  induction a as [|x a IH]; [done |].
  change (String x ((a +:+ b) +:+ c) = String x (a +:+ b +:+ c)).
  by rewrite IH.
Qed.

Lemma foldl_join_prefix (sep p x : string) (l : list string) :
  foldl (fun b s => b +:+ sep +:+ s) (p +:+ x) l
  = p +:+ foldl (fun b s => b +:+ sep +:+ s) x l.
Proof.
  revert x. induction l as [|s l IH]; intros x; simpl; [done |].
  by rewrite <- IH, append_assoc3.
Qed.

Lemma Join_cons (a b : string) (l : list string) (sep : string) :
  Join (a :: b :: l) sep = a +:+ sep +:+ Join (b :: l) sep.
Proof.
  unfold Join. simpl.
  rewrite (foldl_join_prefix sep a (sep +:+ b) l).
  by rewrite (foldl_join_prefix sep sep b l).
Qed.

Lemma Join_app (l1 : list string) (b : string) (l2 : list string) (sep : string) :
  l1 <> [] ->
  Join (l1 ++ b :: l2) sep = Join l1 sep +:+ sep +:+ Join (b :: l2) sep.
Proof.
  induction l1 as [|a [|a' l1] IH]; intros Hne; [done | |].
  - simpl app. apply Join_cons.
  - change ((a :: a' :: l1) ++ b :: l2) with (a :: a' :: (l1 ++ b :: l2)).
    rewrite !Join_cons.
    change (a' :: l1 ++ b :: l2) with ((a' :: l1) ++ b :: l2).
    rewrite IH by done. by rewrite !append_assoc3.
Qed.

Lemma length_Join (a : string) (l : list string) (sep : string) :
  String.length (Join (a :: l) sep)
  = totalLength (a :: l) + length l * String.length sep.
Proof.
  revert a. induction l as [|b l IH]; intros a.
  - simpl. lia.
  - rewrite Join_cons, !length_append, IH. simpl. lia.
Qed.

Lemma totalLength_Permutation (l1 l2 : list string) :
  l1 ≡ₚ l2 -> totalLength l1 = totalLength l2.
Proof.
  induction 1 as [| x l1 l2 _ IH | x y l | l1 l2 l3 _ IH1 _ IH2]; simpl;
    [done | by rewrite IH | lia | congruence].
Qed.

Lemma hasByte_append (a b : string) (c : ascii) :
  hasByte (a +:+ b) c = hasByte a c || hasByte b c.
Proof.
  induction a as [|x a IH]; [done |].
  change (hasByte (String x (a +:+ b)) c = hasByte (String x a) c || hasByte b c).
  simpl. by rewrite IH, orb_assoc.
Qed.

Lemma spaced_app (l1 l2 : list string) :
  spaced (l1 ++ l2) = spaced l1 +:+ spaced l2.
Proof.
  induction l1 as [|t l1 IH]; [done |].
  simpl. by rewrite IH, !append_assoc3.
Qed.

Lemma append_nil_r (a : string) : a +:+ "" = a.
Proof.
  induction a as [|c a IH]; [done |]. by rewrite append_String, IH.
Qed.

Lemma Join_spaced (a : string) (l : list string) :
  Join (a :: l) " " = a +:+ spaced l.
Proof.
  revert a. induction l as [|b l IH]; intros a.
  - simpl. by rewrite append_nil_r.
  - rewrite Join_cons, IH. reflexivity.
Qed.

Lemma Join_segments (pre mid post : list string) :
  pre <> [] ->
  Join (pre ++ mid ++ post) " " = Join pre " " +:+ spaced mid +:+ spaced post.
Proof.
  destruct pre as [|a pre]; [done |]. intros _.
  change ((a :: pre) ++ mid ++ post) with (a :: (pre ++ mid ++ post)).
  by rewrite !Join_spaced, !spaced_app, !append_assoc3.
Qed.




Lemma publishFlags_inline order :
  publishFlags order
  = flat_map
      (fun entry =>
         flat_map
           (fun b =>
              if decide (b.(Port.HostPort) = "") then []
              else ["-p"; b.(Port.HostPort) +:+ ":" +:+ entry.1])
           entry.2)
      order.
Proof.
  unfold publishFlags. induction order as [|[port bindings] order IH]; [done |].
  simpl. rewrite IH. f_equal.
  induction bindings as [|b bindings IHb]; [done |].
  simpl. rewrite IHb. f_equal. unfold publishFlag.
  by destruct (String.eqb_spec (Port.HostPort b) ""),
       (decide (Port.HostPort b = "")).
Qed.

Lemma generateRunCommand_in_publishFlags order1 order2 info1 info2 :
  publishFlags order1 = publishFlags order2 ->
  info1.(ContainerInfo.Name) = info2.(ContainerInfo.Name) ->
  info1.(ContainerInfo.Config) = info2.(ContainerInfo.Config) ->
  info1.(ContainerInfo.HostConfig).(HostConfig.Binds)
  = info2.(ContainerInfo.HostConfig).(HostConfig.Binds) ->
  info1.(ContainerInfo.HostConfig).(HostConfig.RestartPolicy)
  = info2.(ContainerInfo.HostConfig).(HostConfig.RestartPolicy) ->
  info1.(ContainerInfo.HostConfig).(HostConfig.NetworkMode)
  = info2.(ContainerInfo.HostConfig).(HostConfig.NetworkMode) ->
  info1.(ContainerInfo.HostConfig).(HostConfig.Privileged)
  = info2.(ContainerInfo.HostConfig).(HostConfig.Privileged) ->
  info1.(ContainerInfo.HostConfig).(HostConfig.PublishAllPorts)
  = info2.(ContainerInfo.HostConfig).(HostConfig.PublishAllPorts) ->
  generateRunCommand_in order1 info1 = generateRunCommand_in order2 info2.
Proof.
  intros Hflags Hname Hconfig Hbinds Hrestart Hmode Hpriv Hpub.
  unfold generateRunCommand_in. rewrite !generateRunCommand_parts_layout.
  by rewrite Hflags, Hname, Hconfig, Hbinds, Hrestart, Hmode, Hpriv, Hpub.
Qed.


(** ** The end-to-end example *)

Example appDescriptor_parts :
  generateRunCommand_parts [("80/tcp", [Port.mk "" "8080"])] appDescriptor
  = ["docker"; "run"; "-d"; "--name"; "app"; "--restart"; "always";
     "-v"; "/data:/data"; "-p"; "8080:80/tcp"; "-e"; "KEY=1";
     "app:latest"; "serve"].
Proof. reflexivity. Qed.

Lemma appDescriptorWith_order hostIP retries networks order :
  rangeOrder
    (appDescriptorWith hostIP retries networks).(ContainerInfo.HostConfig).(HostConfig.PortBindings)
    order
  <-> order = [("80/tcp", [Port.mk hostIP "8080"])].
Proof.
  change (rangeOrder
            ({[ "80/tcp" := [Port.mk hostIP "8080"] ]} : gmap string (list Port.t))
            order
          <-> order = [("80/tcp", [Port.mk hostIP "8080"])]).
  apply rangeOrder_singleton.
Qed.

Lemma appDescriptorWith_output hostIP retries networks out :
  generateRunCommand (appDescriptorWith hostIP retries networks) out
  <-> out = "docker run -d --name app --restart always -v /data:/data -p 8080:80/tcp -e KEY=1 app:latest serve".
Proof.
  rewrite generateRunCommand_iff. split.
  - intros (order & Horder & ->).
    apply appDescriptorWith_order in Horder as ->. reflexivity.
  - intros ->. exists [("80/tcp", [Port.mk hostIP "8080"])]. split.
    + by apply appDescriptorWith_order.
    + reflexivity.
Qed.

(** C2: the descriptor of the end-to-end example, whatever its host
    interface, retry count and network settings, synthesizes exactly the
    tokens docker run -d --name app --restart always -v /data:/data
    -p 8080:80/tcp -e KEY=1 app:latest serve, in whatever order its
    one-entry port map is iterated, and the command is these tokens joined
    by single spaces. *)
Theorem end_to_end_example :
  forall hostIP retries networks,
    (forall order,
       rangeOrder
         (appDescriptorWith hostIP retries networks).(ContainerInfo.HostConfig).(HostConfig.PortBindings)
         order ->
       generateRunCommand_parts order (appDescriptorWith hostIP retries networks)
       = ["docker"; "run"; "-d"; "--name"; "app"; "--restart"; "always";
          "-v"; "/data:/data"; "-p"; "8080:80/tcp"; "-e"; "KEY=1";
          "app:latest"; "serve"])
    /\ (forall out,
          generateRunCommand (appDescriptorWith hostIP retries networks) out
          <-> out = "docker run -d --name app --restart always -v /data:/data -p 8080:80/tcp -e KEY=1 app:latest serve").
Proof.
  intros hostIP retries networks. split.
  - intros order Horder. apply appDescriptorWith_order in Horder as ->.
    reflexivity.
  - intros out. apply appDescriptorWith_output.
Qed.

(** ** The environment deny-list *)

Example shouldSkipEnv_examples :
  shouldSkipEnv "PATH=/usr/bin" = true /\ shouldSkipEnv "HOSTNAME=" = true
  /\ shouldSkipEnv "HOME=/root" = true /\ shouldSkipEnv "TERM=xterm" = true
  /\ shouldSkipEnv "KEY=1" = false /\ shouldSkipEnv "PATHS=/x" = false
  /\ shouldSkipEnv "path=/x" = false /\ shouldSkipEnv "PATH" = false
  /\ shouldSkipEnv "MYPATH=/x" = false.
Proof. repeat split; reflexivity. Qed.




(** ** Port bindings *)

Lemma publishFlag_empty port binding :
  binding.(Port.HostPort) = "" -> publishFlag port binding = [].
Proof. unfold publishFlag. by intros ->. Qed.

Lemma publishFlag_bound port binding :
  binding.(Port.HostPort) <> "" ->
  publishFlag port binding = ["-p"; binding.(Port.HostPort) +:+ ":" +:+ port].
Proof.
  unfold publishFlag. intros Hne.
  by destruct (String.eqb_spec (Port.HostPort binding) "").
Qed.

Lemma publishFlag_all_empty port bindings :
  Forall (fun b => b.(Port.HostPort) = "") bindings ->
  flat_map (publishFlag port) bindings = [].
Proof.
  induction 1 as [|b bindings Hb _ IH]; simpl; [done |].
  by rewrite publishFlag_empty, IH.
Qed.

Lemma publishFlags_app order1 order2 :
  publishFlags (order1 ++ order2) = publishFlags order1 ++ publishFlags order2.
Proof. unfold publishFlags. apply flat_map_app. Qed.

(** A container port without a bound host port changes no output. *)
Lemma generateRunCommand_unbound_port info ports port bindings out :
  ports !! port = None ->
  Forall (fun b => b.(Port.HostPort) = "") bindings ->
  generateRunCommand (withPortBindings info (<[port := bindings]> ports)) out
  <-> generateRunCommand (withPortBindings info ports) out.
Proof.
  intros Hfresh Hempty. rewrite !generateRunCommand_iff.
  change (HostConfig.PortBindings
            (ContainerInfo.HostConfig
               (withPortBindings info (<[port := bindings]> ports))))
    with (<[port := bindings]> ports).
  change (HostConfig.PortBindings
            (ContainerInfo.HostConfig (withPortBindings info ports)))
    with ports.
  unfold rangeOrder.
  assert (forall l1 l2,
            publishFlags (l1 ++ (port, bindings) :: l2) = publishFlags (l1 ++ l2))
    as Hdrop.
  { intros l1 l2.
    change (l1 ++ (port, bindings) :: l2) with (l1 ++ [(port, bindings)] ++ l2).
    rewrite !publishFlags_app. f_equal.
    unfold publishFlags at 1. simpl.
    by rewrite (publishFlag_all_empty port bindings Hempty). }
  split.
  - intros (order & Horder & ->).
    rewrite (map_to_list_insert ports port bindings Hfresh) in Horder.
    assert ((port, bindings) ∈ order) as Hin.
    { rewrite Horder. apply list_elem_of_here. }
    apply list_elem_of_split in Hin as (l1 & l2 & ->).
    exists (l1 ++ l2). split.
    + symmetry. eapply Permutation_cons_app_inv. symmetry. exact Horder.
    + by apply generateRunCommand_in_publishFlags.
  - intros (order & Horder & ->).
    exists ((port, bindings) :: order). split.
    + rewrite (map_to_list_insert ports port bindings Hfresh). by constructor.
    + apply generateRunCommand_in_publishFlags; try done.
      symmetry. apply (Hdrop [] order).
Qed.

(** C4: for every descriptor and every iteration order of its map, the
    port bindings contribute to the tokens and to the returned command, at
    one fixed place, entry by entry and binding by binding: nothing for a
    host binding with an empty host port, and the one flag
    [-p hostPort:containerPort] for a host binding with a host port.  A
    container port whose host bindings all have empty host ports contributes
    nothing at all: with or without it the descriptor has the same
    commands. *)
Theorem port_binding_filter :
  (forall info, exists pre post, forall ports order,
     rangeOrder ports order ->
     let flags :=
       flat_map
         (fun entry =>
            flat_map
              (fun b =>
                 if decide (b.(Port.HostPort) = "") then []
                 else ["-p"; b.(Port.HostPort) +:+ ":" +:+ entry.1])
              entry.2)
         order in
     generateRunCommand_parts order (withPortBindings info ports)
     = pre ++ flags ++ post
     /\ generateRunCommand_in order (withPortBindings info ports)
        = Join pre " " +:+ spaced flags +:+ spaced post
     /\ generateRunCommand (withPortBindings info ports)
          (Join pre " " +:+ spaced flags +:+ spaced post))
  /\ (forall info ports port bindings out,
        ports !! port = None ->
        Forall (fun b => b.(Port.HostPort) = "") bindings ->
        generateRunCommand (withPortBindings info (<[port := bindings]> ports)) out
        <-> generateRunCommand (withPortBindings info ports) out).
Proof.
  split.
  - intros info.
    exists (generateRunCommand_prefix info
              ++ restartFlags
                   info.(ContainerInfo.HostConfig).(HostConfig.RestartPolicy).(RestartPolicy.Name)
              ++ mountFlags info.(ContainerInfo.HostConfig).(HostConfig.Binds)),
           (envFlags info.(ContainerInfo.Config).(Config.Env)
              ++ generateRunCommand_suffix info).
    intros ports order Horder flags. subst flags.
    rewrite <- publishFlags_inline.
    assert (generateRunCommand_parts order (withPortBindings info ports)
            = (generateRunCommand_prefix info
                 ++ restartFlags
                      info.(ContainerInfo.HostConfig).(HostConfig.RestartPolicy).(RestartPolicy.Name)
                 ++ mountFlags info.(ContainerInfo.HostConfig).(HostConfig.Binds))
              ++ publishFlags order
              ++ envFlags info.(ContainerInfo.Config).(Config.Env)
              ++ generateRunCommand_suffix info) as Hparts.
    { rewrite generateRunCommand_parts_layout.
      unfold generateRunCommand_prefix, generateRunCommand_suffix.
      segments. }
    assert (generateRunCommand_in order (withPortBindings info ports)
            = Join (generateRunCommand_prefix info
                      ++ restartFlags
                           info.(ContainerInfo.HostConfig).(HostConfig.RestartPolicy).(RestartPolicy.Name)
                      ++ mountFlags info.(ContainerInfo.HostConfig).(HostConfig.Binds))
                " "
              +:+ spaced (publishFlags order)
              +:+ spaced (envFlags info.(ContainerInfo.Config).(Config.Env)
                            ++ generateRunCommand_suffix info)) as Hin.
    { unfold generateRunCommand_in. rewrite Hparts.
      apply Join_segments. unfold generateRunCommand_prefix. discriminate. }
    split; [exact Hparts |]. split; [exact Hin |].
    rewrite <- Hin. by constructor.
  - intros info ports port bindings out.
    apply generateRunCommand_unbound_port.
Qed.

(** ** Name, network mode and restart policy *)

Example TrimPrefix_examples :
  TrimPrefix "/web" "/" = "web" /\ TrimPrefix "web" "/" = "web"
  /\ TrimPrefix "//web" "/" = "/web" /\ TrimPrefix "" "/" = ""
  /\ TrimPrefix "/" "/" = "" /\ TrimPrefix "web/" "/" = "web/".
Proof. repeat split; reflexivity. Qed.

(** C5: in the tokens and in the returned command, the value of the name
    flag is the container name with one leading path separator removed,
    whatever the rest of the descriptor is: the command starts
    [docker run -d --name], a space and that value; the names [/web] and
    [web] both give [docker run -d --name web] and the same command. *)
Theorem name_normalization :
  (forall order info, exists rest, forall name,
     generateRunCommand_parts order (withName info name)
     = ["docker"; "run"; "-d"; "--name"; TrimPrefix name "/"] ++ rest
     /\ generateRunCommand_in order (withName info name)
        = "docker run -d --name " +:+ TrimPrefix name "/" +:+ spaced rest)
  /\ (forall order info, exists back,
        generateRunCommand_in order (withName info "/web")
        = "docker run -d --name web" +:+ back
        /\ generateRunCommand_in order (withName info "web")
           = "docker run -d --name web" +:+ back)
  /\ (forall name, TrimPrefix ("/" +:+ name) "/" = name)
  /\ (forall name,
        (forall rest, name <> "/" +:+ rest) -> TrimPrefix name "/" = name).
Proof.
  assert (forall order info name,
            generateRunCommand_parts order (withName info name)
            = ["docker"; "run"; "-d"; "--name"; TrimPrefix name "/"]
              ++ restartFlags
                   info.(ContainerInfo.HostConfig).(HostConfig.RestartPolicy).(RestartPolicy.Name)
              ++ mountFlags info.(ContainerInfo.HostConfig).(HostConfig.Binds)
              ++ publishFlags order
              ++ envFlags info.(ContainerInfo.Config).(Config.Env)
              ++ generateRunCommand_suffix info) as Hlayout.
  { intros order info name.
    rewrite generateRunCommand_parts_layout, TrimPrefix_separator.
    unfold generateRunCommand_suffix. segments. }
  assert (forall order info name,
            generateRunCommand_in order (withName info name)
            = "docker run -d --name " +:+ TrimPrefix name "/"
              +:+ spaced (restartFlags
                            info.(ContainerInfo.HostConfig).(HostConfig.RestartPolicy).(RestartPolicy.Name)
                          ++ mountFlags info.(ContainerInfo.HostConfig).(HostConfig.Binds)
                          ++ publishFlags order
                          ++ envFlags info.(ContainerInfo.Config).(Config.Env)
                          ++ generateRunCommand_suffix info)) as Hcommand.
  { intros order info name. unfold generateRunCommand_in.
    rewrite Hlayout. cbn [app]. rewrite Join_spaced. reflexivity. }
  split; [| split; [| split]].
  - intros order info. eexists. intros name. split; [apply Hlayout | apply Hcommand].
  - intros order info. eexists. split; apply Hcommand.
  - intros name. by rewrite TrimPrefix_separator.
  - intros name Hname. rewrite TrimPrefix_separator.
    destruct name as [|c rest]; [done |]. simpl.
    destruct (Ascii.eqb_spec c "/") as [-> | Hc].
    + by destruct (Hname rest).
    + destruct c as [[] [] [] [] [] [] [] []]; try done.
Qed.

(** C6: the network mode [""] and the network mode ["default"] add nothing
    to the tokens and to the returned command, every other network mode adds
    exactly the flag [--network mode], right before the image, and nothing
    else of the command depends on the mode. *)
Theorem network_mode_flag :
  forall order info, exists pre, forall mode,
    let post := info.(ContainerInfo.Config).(Config.Image)
                :: info.(ContainerInfo.Config).(Config.Cmd) in
    generateRunCommand_parts order (withNetworkMode info mode)
    = pre ++ (if decide (mode = "" \/ mode = "default") then []
              else ["--network"; mode]) ++ post
    /\ generateRunCommand_in order (withNetworkMode info mode)
       = Join pre " "
         +:+ (if decide (mode = "" \/ mode = "default") then ""
              else " --network " +:+ mode)
         +:+ spaced post.
Proof.
  intros order info.
  set (pre := generateRunCommand_prefix info
                ++ restartFlags
                     info.(ContainerInfo.HostConfig).(HostConfig.RestartPolicy).(RestartPolicy.Name)
                ++ mountFlags info.(ContainerInfo.HostConfig).(HostConfig.Binds)
                ++ publishFlags order
                ++ envFlags info.(ContainerInfo.Config).(Config.Env)
                ++ (if info.(ContainerInfo.HostConfig).(HostConfig.Privileged)
                    then ["--privileged"] else [])
                ++ (if info.(ContainerInfo.HostConfig).(HostConfig.PublishAllPorts)
                    then ["-P"] else [])).
  exists pre. intros mode post. subst post.
  assert (generateRunCommand_parts order (withNetworkMode info mode)
          = pre ++ (if decide (mode = "" \/ mode = "default") then []
                    else ["--network"; mode])
            ++ info.(ContainerInfo.Config).(Config.Image)
               :: info.(ContainerInfo.Config).(Config.Cmd)) as Hparts.
  { subst pre. rewrite generateRunCommand_parts_layout.
    unfold generateRunCommand_prefix, networkFlags.
    replace (String.eqb (HostConfig.NetworkMode
                           (ContainerInfo.HostConfig (withNetworkMode info mode))) ""
             || String.eqb (HostConfig.NetworkMode
                              (ContainerInfo.HostConfig (withNetworkMode info mode)))
                  "default")
      with (bool_decide (mode = "" \/ mode = "default")).
    - destruct (decide (mode = "" \/ mode = "default")) as [Hmode | Hmode].
      + rewrite (bool_decide_eq_true_2 _ Hmode). segments.
      + rewrite (bool_decide_eq_false_2 _ Hmode). segments.
    - simpl. apply eq_true_iff_eq.
      rewrite bool_decide_eq_true, orb_true_iff, !String.eqb_eq. done. }
  split; [exact Hparts |].
  unfold generateRunCommand_in. rewrite Hparts.
  rewrite Join_segments by (subst pre; unfold generateRunCommand_prefix; discriminate).
  destruct (decide (mode = "" \/ mode = "default")); [reflexivity |].
  simpl spaced at 1. by rewrite append_nil_r.
Qed.

(** C7: an empty restart-policy name adds nothing to the tokens and to the
    returned command, a non-empty name adds exactly the flag
    [--restart name], right after the name flag, for every retry count, and
    nothing else of the command depends on the policy. *)
Theorem restart_policy_flag :
  forall order info, exists post, forall name retries,
    let pre := ["docker"; "run"; "-d"; "--name";
                TrimPrefix info.(ContainerInfo.Name) "/"] in
    generateRunCommand_parts order
      (withRestartPolicy info (RestartPolicy.mk name retries))
    = pre ++ (if decide (name = "") then [] else ["--restart"; name]) ++ post
    /\ generateRunCommand_in order
         (withRestartPolicy info (RestartPolicy.mk name retries))
       = "docker run -d --name " +:+ TrimPrefix info.(ContainerInfo.Name) "/"
         +:+ (if decide (name = "") then "" else " --restart " +:+ name)
         +:+ spaced post.
Proof.
  intros order info.
  exists (mountFlags info.(ContainerInfo.HostConfig).(HostConfig.Binds)
            ++ publishFlags order
            ++ envFlags info.(ContainerInfo.Config).(Config.Env)
            ++ generateRunCommand_suffix info).
  intros name retries pre. subst pre.
  assert (generateRunCommand_parts order
            (withRestartPolicy info (RestartPolicy.mk name retries))
          = ["docker"; "run"; "-d"; "--name";
             TrimPrefix info.(ContainerInfo.Name) "/"]
            ++ (if decide (name = "") then [] else ["--restart"; name])
            ++ mountFlags info.(ContainerInfo.HostConfig).(HostConfig.Binds)
            ++ publishFlags order
            ++ envFlags info.(ContainerInfo.Config).(Config.Env)
            ++ generateRunCommand_suffix info) as Hparts.
  { rewrite generateRunCommand_parts_layout, TrimPrefix_separator.
    unfold generateRunCommand_suffix, restartFlags. simpl.
    destruct (String.eqb_spec name ""), (decide (name = "")); try done; segments. }
  split; [exact Hparts |].
  unfold generateRunCommand_in. rewrite Hparts.
  rewrite Join_segments by discriminate.
  rewrite !Join_cons. simpl Join.
  destruct (decide (name = "")); rewrite !append_assoc3; [reflexivity |].
  simpl spaced at 1. by rewrite append_nil_r.
Qed.

Example flags_in_the_command :
  let order := [("53/udp", [Port.mk "" ""])] in
  generateRunCommand_in order (withNetworkMode bareDescriptor "bridge2")
  = "docker run -d --name bare --network bridge2 alpine:3"
  /\ generateRunCommand_in order (withNetworkMode bareDescriptor "")
     = "docker run -d --name bare alpine:3"
  /\ generateRunCommand_in order
       (withRestartPolicy bareDescriptor (RestartPolicy.mk "always" 0))
     = "docker run -d --name bare --restart always alpine:3"
  /\ generateRunCommand_in order
       (withRestartPolicy bareDescriptor (RestartPolicy.mk "always" 5))
     = "docker run -d --name bare --restart always alpine:3"
  /\ generateRunCommand_in order (withName bareDescriptor "//web")
     = "docker run -d --name /web alpine:3"
  /\ generateRunCommand_in
       [("53/udp", [Port.mk "" ""; Port.mk "127.0.0.1" "5353"])] bareDescriptor
     = "docker run -d --name bare -p 5353:53/udp alpine:3"
  /\ generateRunCommand_in order (withEnv bareDescriptor ["TERM=xterm"; "A=1"; "B=2"])
     = "docker run -d --name bare -e A=1 -e B=2 alpine:3".
Proof. repeat split; reflexivity. Qed.

(** ** Determinism *)

Lemma publishFlag_not_publishes port bindings :
  publishes bindings = false -> flat_map (publishFlag port) bindings = [].
Proof.
  unfold publishes. induction bindings as [|b bindings IH]; simpl; [done |].
  rewrite orb_false_iff, negb_false_iff, String.eqb_eq.
  intros [Hb Hrest]. by rewrite publishFlag_empty, IH.
Qed.

Lemma publishes_Exists bindings :
  publishes bindings = true <-> Exists (fun b => b.(Port.HostPort) <> "") bindings.
Proof.
  unfold publishes. rewrite existsb_exists, Exists_exists. split.
  - intros (b & Hin & Hb). exists b. split; [by apply list_elem_of_In |].
    apply negb_true_iff in Hb. by apply String.eqb_neq.
  - intros (b & Hin & Hb). exists b. split; [by apply list_elem_of_In |].
    apply negb_true_iff. by apply String.eqb_neq.
Qed.

(** Only the entries that publish matter. *)
Lemma publishFlags_filter order :
  publishFlags order
  = publishFlags (filter (fun entry => publishes entry.2 = true) order).
Proof.
  unfold publishFlags. induction order as [|[port bindings] order IH]; [done |].
  rewrite filter_cons. simpl. destruct (decide (publishes bindings = true)) as [Hp | Hp].
  - simpl. by rewrite IH.
  - apply not_true_is_false in Hp.
    by rewrite publishFlag_not_publishes, IH.
Qed.

Lemma Permutation_short {A} (l1 l2 : list A) :
  l1 ≡ₚ l2 -> length l1 <= 1 -> l1 = l2.
Proof.
  intros Hperm Hlen. destruct l1 as [|a [|b l1]]; simpl in Hlen; [| | lia].
  - by apply Permutation_nil_l in Hperm.
  - by apply Permutation_singleton_l in Hperm.
Qed.

Lemma filter_same_key_short {V} (P : string * V -> Prop)
    `{!forall e, Decision (P e)} (l : list (string * V)) :
  NoDup (l.*1) ->
  (forall e1 e2, e1 ∈ l -> e2 ∈ l -> P e1 -> P e2 -> e1.1 = e2.1) ->
  length (filter P l) <= 1.
Proof.
  intros Hnd Hsame.
  assert (NoDup ((filter P l).*1)) as Hnd'.
  { eapply sublist_NoDup; [exact Hnd | apply fmap_sublist, sublist_filter]. }
  assert (forall e, e ∈ filter P l -> P e /\ e ∈ l) as Hin.
  { intros e. apply list_elem_of_filter. }
  destruct (filter P l) as [|e1 [|e2 rest]]; simpl; [lia | lia |].
  exfalso.
  destruct (Hin e1) as [Hp1 Hl1]; [apply list_elem_of_here |].
  destruct (Hin e2) as [Hp2 Hl2];
    [apply list_elem_of_further, list_elem_of_here |].
  simpl in Hnd'. apply NoDup_cons in Hnd' as [Hnot _].
  apply Hnot. rewrite (Hsame e1 e2) by done. apply list_elem_of_here.
Qed.

Lemma generateRunCommand_one_published_port info out1 out2 :
  (forall port1 port2 bindings1 bindings2,
     info.(ContainerInfo.HostConfig).(HostConfig.PortBindings) !! port1
     = Some bindings1 ->
     info.(ContainerInfo.HostConfig).(HostConfig.PortBindings) !! port2
     = Some bindings2 ->
     Exists (fun b => b.(Port.HostPort) <> "") bindings1 ->
     Exists (fun b => b.(Port.HostPort) <> "") bindings2 ->
     port1 = port2) ->
  generateRunCommand info out1 ->
  generateRunCommand info out2 ->
  out1 = out2.
Proof.
  intros Hone [order1 H1] [order2 H2].
  unfold generateRunCommand_in.
  rewrite !generateRunCommand_parts_layout.
  rewrite (publishFlags_filter order1), (publishFlags_filter order2).
  unfold rangeOrder in H1, H2.
  set (published := fun entry : string * list Port.t => publishes entry.2 = true).
  assert (filter published order1 = filter published order2) as ->; [| done].
  apply Permutation_short.
  - by rewrite H1, H2.
  - rewrite H1. apply filter_same_key_short.
    + apply NoDup_fst_map_to_list.
    + intros [port1 bs1] [port2 bs2] Hin1 Hin2 Hp1 Hp2. simpl in *.
      apply elem_of_map_to_list in Hin1, Hin2.
      apply publishes_Exists in Hp1, Hp2.
      by apply (Hone port1 port2 bs1 bs2).
Qed.

(** C1 (amended): the outputs of a descriptor differ at most in the
    order in which the container ports of the map are visited: every output
    is the same tokens before the publish flags, the publish flags of the
    container ports in some order of the map, and the same tokens after
    them.  When at most one container port of the map has a host binding
    with a host port, every call of the synthesizer on the descriptor
    returns the same string. *)
Theorem synthesis_deterministic_up_to_port_order :
  forall info,
    (exists pre post, forall out,
        generateRunCommand info out
        <-> exists order,
              order ≡ₚ map_to_list
                         info.(ContainerInfo.HostConfig).(HostConfig.PortBindings)
              /\ out = Join (pre
                             ++ flat_map
                                  (fun entry => flat_map (publishFlag entry.1) entry.2)
                                  order
                             ++ post) " ")
    /\ ((forall port1 port2 bindings1 bindings2,
           info.(ContainerInfo.HostConfig).(HostConfig.PortBindings) !! port1
           = Some bindings1 ->
           info.(ContainerInfo.HostConfig).(HostConfig.PortBindings) !! port2
           = Some bindings2 ->
           Exists (fun b => b.(Port.HostPort) <> "") bindings1 ->
           Exists (fun b => b.(Port.HostPort) <> "") bindings2 ->
           port1 = port2) ->
        forall out1 out2,
          generateRunCommand info out1 ->
          generateRunCommand info out2 ->
          out1 = out2).
Proof.
  intros info. split.
  - exists (generateRunCommand_prefix info
              ++ restartFlags
                   info.(ContainerInfo.HostConfig).(HostConfig.RestartPolicy).(RestartPolicy.Name)
              ++ mountFlags info.(ContainerInfo.HostConfig).(HostConfig.Binds)),
           (envFlags info.(ContainerInfo.Config).(Config.Env)
              ++ generateRunCommand_suffix info).
    intros out. rewrite generateRunCommand_iff.
    assert (forall order,
              generateRunCommand_in order info
              = Join ((generateRunCommand_prefix info
                         ++ restartFlags
                              info.(ContainerInfo.HostConfig).(HostConfig.RestartPolicy).(RestartPolicy.Name)
                         ++ mountFlags info.(ContainerInfo.HostConfig).(HostConfig.Binds))
                      ++ publishFlags order
                      ++ envFlags info.(ContainerInfo.Config).(Config.Env)
                      ++ generateRunCommand_suffix info) " ") as Hin.
    { intros order. unfold generateRunCommand_in. f_equal.
      rewrite generateRunCommand_parts_layout.
      unfold generateRunCommand_prefix, generateRunCommand_suffix. segments. }
    unfold rangeOrder.
    split; intros (order & Horder & ->); exists order; (split; [done |]);
      [apply Hin | symmetry; apply Hin].
  - intros Hone out1 out2. by apply generateRunCommand_one_published_port.
Qed.

Lemma twoPortDescriptor_order order :
  order ≡ₚ twoPortBindings ->
  rangeOrder
    twoPortDescriptor.(ContainerInfo.HostConfig).(HostConfig.PortBindings) order.
Proof.
  intros Hperm.
  change (rangeOrder (list_to_map twoPortBindings : gmap string (list Port.t)) order).
  apply rangeOrder_list_to_map; [| done].
  unfold twoPortBindings. simpl. apply NoDup_cons. split; [| apply NoDup_singleton].
  intros Hin. apply list_elem_of_singleton in Hin. discriminate.
Qed.

(** Counterexample to C1 as the specification states it: the descriptor with the two published ports
    80/tcp and 443/tcp has two outputs that differ in the order of the two
    publish flags. *)
Lemma synthesis_not_deterministic :
  generateRunCommand twoPortDescriptor
    "docker run -d --name web -p 8080:80/tcp -p 8443:443/tcp web:1"
  /\ generateRunCommand twoPortDescriptor
       "docker run -d --name web -p 8443:443/tcp -p 8080:80/tcp web:1"
  /\ "docker run -d --name web -p 8080:80/tcp -p 8443:443/tcp web:1"
     <> "docker run -d --name web -p 8443:443/tcp -p 8080:80/tcp web:1".
Proof.
  split; [| split].
  - apply generateRunCommand_iff. exists twoPortBindings. split.
    + by apply twoPortDescriptor_order.
    + reflexivity.
  - apply generateRunCommand_iff.
    exists [("443/tcp", [Port.mk "" "8443"]); ("80/tcp", [Port.mk "" "8080"])].
    split.
    + apply twoPortDescriptor_order. apply perm_swap.
    + reflexivity.
  - discriminate.
Qed.

Lemma onePublishedPortDescriptor_order order :
  order ≡ₚ [("80/tcp", [Port.mk "" "8080"]); ("53/udp", [Port.mk "" ""])] ->
  rangeOrder
    onePublishedPortDescriptor.(ContainerInfo.HostConfig).(HostConfig.PortBindings)
    order.
Proof.
  intros Hperm.
  change (rangeOrder
            (list_to_map [("80/tcp", [Port.mk "" "8080"]); ("53/udp", [Port.mk "" ""])]
             : gmap string (list Port.t)) order).
  apply rangeOrder_list_to_map; [| done].
  simpl. apply NoDup_cons. split; [| apply NoDup_singleton].
  intros Hin. apply list_elem_of_singleton in Hin. discriminate.
Qed.

Lemma onePublishedPortDescriptor_one_port port1 port2 bindings1 bindings2 :
  onePublishedPortDescriptor.(ContainerInfo.HostConfig).(HostConfig.PortBindings)
    !! port1 = Some bindings1 ->
  onePublishedPortDescriptor.(ContainerInfo.HostConfig).(HostConfig.PortBindings)
    !! port2 = Some bindings2 ->
  Exists (fun b => b.(Port.HostPort) <> "") bindings1 ->
  Exists (fun b => b.(Port.HostPort) <> "") bindings2 ->
  port1 = port2.
Proof.
  assert (forall port bindings,
            (<["80/tcp" := [Port.mk "" "8080"]]>
               (<["53/udp" := [Port.mk "" ""]]> (∅ : gmap string (list Port.t))))
              !! port = Some bindings ->
            Exists (fun b => b.(Port.HostPort) <> "") bindings ->
            port = "80/tcp") as Honly.
  { intros port bindings Hlook Hex.
    destruct (decide (port = "80/tcp")) as [| Hne1]; [done |].
    rewrite lookup_insert_ne in Hlook by done.
    destruct (decide (port = "53/udp")) as [-> | Hne2].
    - rewrite lookup_insert_eq in Hlook. injection Hlook as <-.
      apply Exists_cons in Hex as [Hex | Hex]; [done |].
      by apply Exists_nil in Hex.
    - rewrite lookup_insert_ne, lookup_empty in Hlook by done. done. }
  intros H1 H2 E1 E2.
  rewrite (Honly port1 bindings1 H1 E1). symmetry.
  exact (Honly port2 bindings2 H2 E2).
Qed.

(** An instance for C1: a map with the two ports 80/tcp and 53/udp, of
    which only the first is published, in its two orders. *)
Lemma synthesis_deterministic_up_to_port_order_witness :
  generateRunCommand_in
    [("80/tcp", [Port.mk "" "8080"]); ("53/udp", [Port.mk "" ""])]
    onePublishedPortDescriptor
  = generateRunCommand_in
      [("53/udp", [Port.mk "" ""]); ("80/tcp", [Port.mk "" "8080"])]
      onePublishedPortDescriptor.
Proof.
  apply (proj2 (synthesis_deterministic_up_to_port_order
                  onePublishedPortDescriptor)
           onePublishedPortDescriptor_one_port).
  - constructor. by apply onePublishedPortDescriptor_order.
  - constructor. apply onePublishedPortDescriptor_order. apply perm_swap.
Defined.

(** ** Fields the synthesizer does not read *)

Lemma publishFlag_hostPorts port (bs1 bs2 : list Port.t) :
  Port.HostPort <$> bs1 = Port.HostPort <$> bs2 ->
  flat_map (publishFlag port) bs1 = flat_map (publishFlag port) bs2.
Proof.
  revert bs2. induction bs1 as [|b1 bs1 IH]; intros [|b2 bs2] Heq;
    try discriminate; [done |].
  simpl in Heq. injection Heq as Hb Hbs. simpl.
  rewrite (IH bs2 Hbs). unfold publishFlag. by rewrite Hb.
Qed.

Lemma publishFlags_hostPorts (order1 order2 : list (string * list Port.t)) :
  entryHostPorts <$> order1
  = entryHostPorts <$> order2 ->
  publishFlags order1 = publishFlags order2.
Proof.
  unfold publishFlags. revert order2.
  induction order1 as [|[p1 bs1] order1 IH]; intros [|[p2 bs2] order2] Heq;
    try discriminate; [done |].
  simpl in Heq. injection Heq as Hp Hbs Hrest. simpl. subst p2.
  by rewrite (IH order2 Hrest), (publishFlag_hostPorts p1 bs1 bs2 Hbs).
Qed.

(** An order of one map gives an order of any map with the same host
    ports, with the same container ports at the same places. *)
Lemma rangeOrder_hostPorts (m1 m2 : gmap string (list Port.t)) order1 :
  hostPorts m1 = hostPorts m2 ->
  rangeOrder m1 order1 ->
  exists order2,
    rangeOrder m2 order2
    /\ entryHostPorts <$> order1
       = entryHostPorts <$> order2.
Proof.
  unfold rangeOrder, hostPorts. intros Hports Horder.
  assert ((entryHostPorts <$> order1)
          ≡ₚ (entryHostPorts <$> map_to_list m2)) as Hperm.
  { rewrite Horder, <- !map_to_list_fmap. by rewrite Hports. }
  apply Permutation_map_inv in Hperm as (order2 & Heq & Hperm).
  exists order2. split; [by symmetry | done].
Qed.

Lemma generateRunCommand_in_same a b order_a order_b :
  sameSynthesisInputs a b ->
  entryHostPorts <$> order_a
  = entryHostPorts <$> order_b ->
  generateRunCommand_in order_a a = generateRunCommand_in order_b b.
Proof.
  intros (Hname & Hconfig & Hbinds & _ & Hrestart & Hmode & Hpriv & Hpub) Horder.
  unfold generateRunCommand_in. rewrite !generateRunCommand_parts_layout.
  by rewrite Hname, Hconfig, Hbinds, Hrestart, Hmode, Hpriv, Hpub,
    (publishFlags_hostPorts order_a order_b Horder).
Qed.

Lemma sameSynthesisInputs_sym a b :
  sameSynthesisInputs a b -> sameSynthesisInputs b a.
Proof. unfold sameSynthesisInputs. intuition congruence. Qed.

(** C10 (amended): two descriptors that differ only in the network
    settings, in the host interfaces of the port bindings and in the retry
    count have the same outputs: what one can return the other can return;
    when the two maps are iterated with the container ports in the same
    order the two commands are the same string; and when at most one
    container port has a host binding with a host port, every command of the
    one is the command of the other. *)
Theorem unread_fields_do_not_influence :
  forall a b,
    sameSynthesisInputs a b ->
    (forall out, generateRunCommand a out <-> generateRunCommand b out)
    /\ (forall order_a,
          rangeOrder a.(ContainerInfo.HostConfig).(HostConfig.PortBindings) order_a ->
          exists order_b,
            rangeOrder b.(ContainerInfo.HostConfig).(HostConfig.PortBindings) order_b
            /\ order_b.*1 = order_a.*1
            /\ generateRunCommand_in order_a a = generateRunCommand_in order_b b)
    /\ ((forall port1 port2 bindings1 bindings2,
           a.(ContainerInfo.HostConfig).(HostConfig.PortBindings) !! port1
           = Some bindings1 ->
           a.(ContainerInfo.HostConfig).(HostConfig.PortBindings) !! port2
           = Some bindings2 ->
           Exists (fun p => p.(Port.HostPort) <> "") bindings1 ->
           Exists (fun p => p.(Port.HostPort) <> "") bindings2 ->
           port1 = port2) ->
        forall out_a out_b,
          generateRunCommand a out_a ->
          generateRunCommand b out_b ->
          out_a = out_b).
Proof.
  assert (forall a b,
            sameSynthesisInputs a b ->
            forall order_a,
              rangeOrder a.(ContainerInfo.HostConfig).(HostConfig.PortBindings) order_a ->
              exists order_b,
                rangeOrder b.(ContainerInfo.HostConfig).(HostConfig.PortBindings) order_b
                /\ order_b.*1 = order_a.*1
                /\ generateRunCommand_in order_a a = generateRunCommand_in order_b b)
    as Hstep.
  { intros a b Hsame order_a Horder.
    pose proof Hsame as (_ & _ & _ & Hports & _).
    destruct (rangeOrder_hostPorts _ _ _ Hports Horder) as (order_b & Hb & Heq).
    exists order_b. split; [done |]. split.
    - apply (f_equal (fmap fst)) in Heq.
      rewrite <- !list_fmap_compose in Heq. symmetry. exact Heq.
    - by apply generateRunCommand_in_same. }
  intros a b Hsame.
  assert (forall out, generateRunCommand a out <-> generateRunCommand b out)
    as Hsets.
  { intros out. split.
    - intros [order_a Ha].
      destruct (Hstep a b Hsame order_a Ha) as (order_b & Hb & _ & ->).
      by constructor.
    - intros [order_b Hb].
      destruct (Hstep b a (sameSynthesisInputs_sym _ _ Hsame) order_b Hb)
        as (order_a & Ha & _ & ->).
      by constructor. }
  split; [exact Hsets |]. split; [by apply Hstep |].
  intros Hone out_a out_b Ha Hb. apply Hsets in Hb.
  by apply (generateRunCommand_one_published_port a).
Qed.

Lemma twoPortDescriptorElsewhere_order order :
  order ≡ₚ twoPortBindingsElsewhere ->
  rangeOrder
    twoPortDescriptorElsewhere.(ContainerInfo.HostConfig).(HostConfig.PortBindings)
    order.
Proof.
  intros Hperm.
  change (rangeOrder
            (list_to_map twoPortBindingsElsewhere : gmap string (list Port.t)) order).
  apply rangeOrder_list_to_map; [| done].
  unfold twoPortBindingsElsewhere. simpl.
  apply NoDup_cons. split; [| apply NoDup_singleton].
  intros Hin. apply list_elem_of_singleton in Hin. discriminate.
Qed.

Lemma twoPortDescriptorElsewhere_same :
  sameSynthesisInputs twoPortDescriptor twoPortDescriptorElsewhere.
Proof.
  unfold sameSynthesisInputs. repeat split.
Qed.

(** Counterexample to C10 as the specification states it: the descriptor
    with the two published ports and its variant with other host interfaces,
    another retry count and a network attached differ only in fields the
    synthesizer does not read, and a call on the one and a call on the other
    can return different commands. *)
Lemma unread_fields_outputs_can_differ :
  sameSynthesisInputs twoPortDescriptor twoPortDescriptorElsewhere
  /\ generateRunCommand twoPortDescriptor
       "docker run -d --name web -p 8080:80/tcp -p 8443:443/tcp web:1"
  /\ generateRunCommand twoPortDescriptorElsewhere
       "docker run -d --name web -p 8443:443/tcp -p 8080:80/tcp web:1"
  /\ "docker run -d --name web -p 8080:80/tcp -p 8443:443/tcp web:1"
     <> "docker run -d --name web -p 8443:443/tcp -p 8080:80/tcp web:1".
Proof.
  split; [exact twoPortDescriptorElsewhere_same |]. split; [| split].
  - apply generateRunCommand_iff. exists twoPortBindings. split.
    + by apply twoPortDescriptor_order.
    + reflexivity.
  - apply generateRunCommand_iff.
    exists [("443/tcp", [Port.mk "10.0.0.1" "8443"]);
            ("80/tcp", [Port.mk "10.0.0.1" "8080"])].
    split.
    + apply twoPortDescriptorElsewhere_order. apply perm_swap.
    + reflexivity.
  - discriminate.
Qed.

Lemma appDescriptorElsewhere_same :
  sameSynthesisInputs appDescriptor appDescriptorElsewhere.
Proof.
  unfold sameSynthesisInputs. repeat split.
Qed.

(** An instance for C10: the end-to-end descriptor and its variant with
    the host interface 0.0.0.0, five retries and a network attached. *)
Lemma unread_fields_do_not_influence_witness :
  generateRunCommand appDescriptorElsewhere
    "docker run -d --name app --restart always -v /data:/data -p 8080:80/tcp -e KEY=1 app:latest serve".
Proof.
  apply (proj1 (unread_fields_do_not_influence
                  appDescriptor appDescriptorElsewhere
                  appDescriptorElsewhere_same)).
  by apply (appDescriptorWith_output "" 0 ∅).
Defined.

(** ** The confirmation *)

Lemma ReadString_line input ends delim response :
  ReadString input ends delim = (response, None)
  <-> exists line rest,
        input = line +:+ String delim rest
        /\ hasByte line delim = false
        /\ response = line +:+ String delim "".
Proof.
  revert response. induction input as [|c input IH]; intros response; simpl.
  - split; [discriminate |].
    intros (line & rest & Hin & _). by destruct line.
  - destruct (Ascii.eqb_spec c delim) as [-> | Hc].
    + split.
      * intros [= <-]. by exists "", input.
      * intros ([|d line] & rest & Hin & Hline & ->); [done |].
        simpl in Hin, Hline. injection Hin as -> _.
        by rewrite Ascii.eqb_refl in Hline.
    + destruct (ReadString input ends delim) as [l e] eqn:Hread. split.
      * intros [= <- ->].
        destruct (proj1 (IH l) eq_refl) as (line & rest & -> & Hline & ->).
        exists (String c line), rest. simpl.
        by rewrite (proj2 (Ascii.eqb_neq c delim) Hc).
      * intros ([|d line] & rest & Hin & Hline & ->); simpl in Hin.
        { injection Hin as -> _. done. }
        injection Hin as <- ->. simpl in Hline.
        apply orb_false_iff in Hline as [_ Hline].
        assert ((l, e) = (line +:+ String delim "", None)) as Hok.
        { apply IH. by exists line, rest. }
        by injection Hok as -> ->.
Qed.

Lemma ReadString_fails input ends delim :
  hasByte input delim = false ->
  ReadString input ends delim = (input, Some ends).
Proof.
  induction input as [|c input IH]; simpl; [done |].
  intros [Hc Hrest]%orb_false_iff. by rewrite Hc, IH.
Qed.

Section Confirmation.
Context {W : Type}.
Variable exec_Command : list string -> W -> (string * option error) * W.
Variable json_Unmarshal : string -> list ContainerInfo.t + error.
Variable strings_ToLower strings_TrimSpace : string -> string.
Variable mapRange : gmap string (list Port.t) -> list (string * list Port.t).
Variable os_Args : list string.
Variable os_Stdin : string * error.

Lemma confirmExecution_events (r : Run (W := W)) :
  (confirmExecution strings_ToLower strings_TrimSpace os_Stdin r).2
  = mkRun r.(world) (r.(events) ++ [Prompt]).
Proof.
  unfold confirmExecution, bind, emit, ret.
  destruct (ReadString os_Stdin.1 os_Stdin.2 "010") as [response [e|]]; done.
Qed.

Lemma confirmExecution_answer (r : Run (W := W)) :
  (confirmExecution strings_ToLower strings_TrimSpace os_Stdin r).1 = true
  <-> answersYes strings_ToLower strings_TrimSpace os_Stdin.
Proof.
  unfold confirmExecution, bind, emit, ret, answersYes, newline.
  destruct (ReadString os_Stdin.1 os_Stdin.2 "010") as [response [e|]] eqn:Hread;
    simpl.
  - split; [discriminate |].
    intros (line & rest & Hin & Hline & _).
    assert (ReadString os_Stdin.1 os_Stdin.2 "010"
            = (line +:+ String "010" "", None)) as Hok.
    { apply ReadString_line. by exists line, rest. }
    rewrite Hok in Hread. discriminate.
  - apply ReadString_line in Hread as (line & rest & Hin & Hline & ->).
    rewrite orb_true_iff, !String.eqb_eq. split.
    + intros Hyes. by exists line, rest.
    + intros (line' & rest' & Hin' & Hline' & Hyes).
      assert (ReadString os_Stdin.1 os_Stdin.2 "010"
              = (line' +:+ String "010" "", None)) as Hok'.
      { apply ReadString_line. by exists line', rest'. }
      assert (ReadString os_Stdin.1 os_Stdin.2 "010"
              = (line +:+ String "010" "", None)) as Hok.
      { apply ReadString_line. by exists line, rest. }
      rewrite Hok in Hok'. injection Hok' as ->. exact Hyes.
Qed.
End Confirmation.

(** Before the confirmation only external commands are started, and a run
    that is not confirmed starts no shell. *)
Ltac events_of_run :=
  let Hin := fresh "Hin" in
  split;
  [ intros ? Hin | intros Hin ];
  repeat (apply elem_of_cons in Hin as [Hin | Hin]; [discriminate |]);
  try (by apply elem_of_nil in Hin); try reflexivity.

Ltac run_step exec :=
  match goal with
  | |- context [exec ?argv ?w] => destruct (exec argv w) as [[? [?|]] ?]
  end;
  cbn [fst snd app].

Lemma main_declined {W : Type}
    (exec_Command : list string -> W -> (string * option error) * W)
    (json_Unmarshal : string -> list ContainerInfo.t + error)
    (strings_ToLower strings_TrimSpace : string -> string)
    (mapRange : gmap string (list Port.t) -> list (string * list Port.t))
    (os_Args : list string) (os_Stdin : string * error) (w : W) :
  ~ answersYes strings_ToLower strings_TrimSpace os_Stdin ->
  let run := runMain exec_Command json_Unmarshal strings_ToLower
               strings_TrimSpace mapRange os_Args os_Stdin w in
  (forall cmd, Exec ["sh"; "-c"; cmd] ∉ run.2.(events))
  /\ (Prompt ∈ run.2.(events) -> run.1 = 0%Z).
Proof.
  intros Hno run. subst run.
  cbv beta iota zeta delta
    [runMain main bind ret command getContainerInfo stopAndRemoveContainer
     pullLatestImage executeCommand world events].
  destruct (length os_Args <? 2)%nat; [simpl; events_of_run |].
  run_step exec_Command; [events_of_run |].
  destruct (json_Unmarshal _) as [[|info others] | e];
    cbn [fst snd app]; [events_of_run | | events_of_run].
  run_step exec_Command; [events_of_run |].
  run_step exec_Command; [events_of_run |].
  run_step exec_Command; [events_of_run |].
  match goal with
  | |- context [confirmExecution ?l ?t ?i ?r] =>
      pose proof (confirmExecution_events l t i r) as Hev;
      pose proof (confirmExecution_answer l t i r) as Hans;
      destruct (confirmExecution l t i r) as [confirmed r']
  end.
  simpl in Hev, Hans. subst r'.
  destruct confirmed; [by destruct Hno; apply Hans |].
  cbn [fst snd app negb events]. events_of_run.
Qed.

Example confirmExecution_examples :
  let confirm (input : string) :=
    (confirmExecution asciiToLower asciiTrimSpace (input, "EOF")
       (mkRun tt [])).1 in
  let lf := String newline "" in
  let cr := String "013"%char "" in
  confirm ("y" +:+ lf) = true
  /\ confirm ("YES" +:+ lf) = true
  /\ confirm ("  Yes " +:+ cr +:+ lf +:+ "ignored") = true
  /\ confirm ("y") = false
  /\ confirm ("") = false
  /\ confirm (lf) = false
  /\ confirm ("n" +:+ lf) = false
  /\ confirm ("yes please" +:+ lf) = false
  /\ confirm ("ye" +:+ lf +:+ "s" +:+ lf) = false.
Proof. repeat split; reflexivity. Qed.

(** A declined run: the four docker commands, the prompt, exit status 0. *)
Example runMain_declined :
  runMain obliging (decodesTo [appDescriptor]) asciiToLower asciiTrimSpace
    anyOrder ["drun"; "app"] ("n" +:+ String newline "", "EOF") tt
  = (0%Z,
     mkRun tt
       [Exec ["docker"; "inspect"; "app"]; Exec ["docker"; "stop"; "app"];
        Exec ["docker"; "rm"; "app"]; Exec ["docker"; "pull"; "app:latest"];
        Prompt]).
Proof. reflexivity. Qed.

(** ** The descriptor loader *)

(** C9 (amended): the loader fails with the error [container not found]
    exactly when the inspect command succeeds and its output decodes to an
    empty array; when the command succeeds and the output decodes to one
    container or more the loader returns the first one; and when the
    command itself fails the loader reports that failure, whatever its
    output decodes to. *)
Theorem loader_not_found_or_first_match :
  forall (W : Type)
         (exec_Command : list string -> W -> (string * option error) * W)
         (json_Unmarshal : string -> list ContainerInfo.t + error)
         (containerName : string) (r : Run (W := W)),
    let inspected :=
      (exec_Command ["docker"; "inspect"; containerName] r.(world)).1 in
    let loaded := (getContainerInfo exec_Command json_Unmarshal containerName r).1 in
    (loaded = inr "container not found"
     <-> inspected.2 = None /\ json_Unmarshal inspected.1 = inl [])
    /\ (forall first others,
          inspected.2 = None ->
          json_Unmarshal inspected.1 = inl (first :: others) ->
          loaded = inl first)
    /\ (forall e,
          inspected.2 = Some e ->
          loaded = inr ("failed to inspect container: " +:+ e)).
Proof.
  intros W exec_Command json_Unmarshal containerName r inspected loaded.
  subst inspected loaded.
  cbv beta iota zeta delta [getContainerInfo bind ret command].
  destruct (exec_Command _ (world r)) as [[output [e|]] w']; cbn [fst snd].
  - split; [| split].
    + split; [discriminate | intros [? _]; discriminate].
    + intros first others ?. discriminate.
    + by intros e' [= ->].
  - destruct (json_Unmarshal output) as [[|c cs] | e]; cbn [fst snd].
    + split; [by split | split].
      * intros first others _ Hdecoded. discriminate Hdecoded.
      * intros e' Hfailed. discriminate Hfailed.
    + split; [| split].
      * split; [discriminate | intros [_ Hdecoded]; discriminate Hdecoded].
      * intros first others _ [= -> _]. reflexivity.
      * intros e' Hfailed. discriminate Hfailed.
    + split; [| split].
      * split; [discriminate | intros [_ Hdecoded]; discriminate Hdecoded].
      * intros first others _ Hdecoded. discriminate Hdecoded.
      * intros e' Hfailed. discriminate Hfailed.
Qed.

(** An instance for C9: the daemon reports two containers. *)
Lemma loader_not_found_or_first_match_witness :
  (getContainerInfo obliging (decodesTo [appDescriptor; twoPortDescriptor])
     "app" (mkRun tt [])).1
  = inl appDescriptor.
Proof.
  apply (proj1 (proj2 (loader_not_found_or_first_match
                         unit obliging
                         (decodesTo [appDescriptor; twoPortDescriptor])
                         "app" (mkRun tt [])))
           appDescriptor [twoPortDescriptor]); reflexivity.
Defined.

(** Counterexample to C9 as the specification states it: the inspect
    command prints an empty array and exits with status 1; its output
    decodes to zero containers and the loader does not fail with
    [container not found]; and were the output to decode to a container,
    the loader would not return it. *)
Lemma loader_query_failure_comes_first :
  decodesTo [] (refusing ["docker"; "inspect"; "gone"] tt).1.1 = inl []
  /\ (getContainerInfo refusing (decodesTo []) "gone" (mkRun tt [])).1
     = inr "failed to inspect container: exit status 1"
  /\ (getContainerInfo refusing (decodesTo []) "gone" (mkRun tt [])).1
     <> inr "container not found"
  /\ decodesTo [appDescriptor] (refusing ["docker"; "inspect"; "gone"] tt).1.1
     = inl [appDescriptor]
  /\ (getContainerInfo refusing (decodesTo [appDescriptor]) "gone" (mkRun tt [])).1
     <> inl appDescriptor.
Proof. repeat split; discriminate. Qed.

Example getContainerInfo_examples :
  (getContainerInfo obliging (decodesTo []) "app" (mkRun tt [])).1
  = inr "container not found"
  /\ (getContainerInfo obliging (decodesTo [appDescriptor; twoPortDescriptor])
        "app" (mkRun tt [])).1
     = inl appDescriptor
  /\ (getContainerInfo (fun _ w => (("", Some "exit status 1"), w))
        (decodesTo [appDescriptor]) "app" (mkRun tt [])).1
     = inr "failed to inspect container: exit status 1"
  /\ (getContainerInfo obliging (fun _ => inr "unexpected end of JSON input")
        "app" (mkRun tt [])).1
     = inr "failed to parse container info: unexpected end of JSON input".
Proof. repeat split; reflexivity. Qed.

(** ** The whole command *)

(** X1: the tokens of the command are, in this order: docker run -d, the
    name flag, the restart flag, one [-v] per bind, the publish flags of the
    entries in the order of the iteration, one [-e] per environment entry
    that is not skipped, [--privileged] when privileged, [-P] when all ports
    are published, the network flag, the image, the trailing command. *)
Theorem generateRunCommand_token_order :
  forall order info,
    let h := info.(ContainerInfo.HostConfig) in
    let c := info.(ContainerInfo.Config) in
    generateRunCommand_parts order info
    = ["docker"; "run"; "-d"]
      ++ ["--name"; TrimPrefix info.(ContainerInfo.Name) "/"]
      ++ (if decide (h.(HostConfig.RestartPolicy).(RestartPolicy.Name) = "")
          then []
          else ["--restart"; h.(HostConfig.RestartPolicy).(RestartPolicy.Name)])
      ++ flat_map (fun bind => ["-v"; bind]) h.(HostConfig.Binds)
      ++ flat_map
           (fun entry =>
              flat_map
                (fun b =>
                   if decide (b.(Port.HostPort) = "") then []
                   else ["-p"; b.(Port.HostPort) +:+ ":" +:+ entry.1])
                entry.2)
           order
      ++ flat_map (fun e => ["-e"; e])
           (List.filter (fun e => negb (shouldSkipEnv e)) c.(Config.Env))
      ++ (if h.(HostConfig.Privileged) then ["--privileged"] else [])
      ++ (if h.(HostConfig.PublishAllPorts) then ["-P"] else [])
      ++ (if decide (h.(HostConfig.NetworkMode) = ""
                     \/ h.(HostConfig.NetworkMode) = "default")
          then [] else ["--network"; h.(HostConfig.NetworkMode)])
      ++ [c.(Config.Image)]
      ++ c.(Config.Cmd).
Proof.
  intros order info h c. subst h c.
  rewrite generateRunCommand_parts_layout, TrimPrefix_separator.
  assert (forall name,
            restartFlags name
            = if decide (name = "") then [] else ["--restart"; name]) as ->.
  { intros name. unfold restartFlags.
    by destruct (String.eqb_spec name ""), (decide (name = "")). }
  assert (forall mode,
            networkFlags mode
            = if decide (mode = "" \/ mode = "default") then []
              else ["--network"; mode]) as ->.
  { intros mode. unfold networkFlags.
    destruct (String.eqb_spec mode ""), (String.eqb_spec mode "default"),
      (decide (mode = "" \/ mode = "default")); simpl; tauto. }
  assert (publishFlags order
          = flat_map
              (fun entry =>
                 flat_map
                   (fun b =>
                      if decide (b.(Port.HostPort) = "") then []
                      else ["-p"; b.(Port.HostPort) +:+ ":" +:+ entry.1])
                   entry.2)
              order) as ->.
  { unfold publishFlags. induction order as [|[port bindings] order IH]; [done |].
    simpl. rewrite IH. f_equal.
    induction bindings as [|b bindings IHb]; [done |].
    simpl. rewrite IHb. f_equal. unfold publishFlag.
    by destruct (String.eqb_spec (Port.HostPort b) ""),
         (decide (Port.HostPort b = "")). }
  reflexivity.
Qed.

Lemma Join_tokens_with_space (a b : string) (rest : list string) :
  Join ((a +:+ " " +:+ b) :: rest) " " = Join (a :: b :: rest) " ".
Proof.
  destruct rest as [|c rest].
  - by rewrite Join_cons.
  - by rewrite !Join_cons, !append_assoc3.
Qed.

Lemma length_Join_Permutation (l1 l2 : list string) (sep : string) :
  l1 ≡ₚ l2 -> String.length (Join l1 sep) = String.length (Join l2 sep).
Proof.
  intros Hperm.
  pose proof (Permutation_length Hperm) as Hlen.
  pose proof (totalLength_Permutation _ _ Hperm) as Htotal.
  destruct l1 as [|a l1], l2 as [|b l2]; try discriminate; [done |].
  rewrite !length_Join, Htotal. simpl in Hlen. by injection Hlen as ->.
Qed.

Lemma publishFlags_unbound order :
  (forall port bindings,
     (port, bindings) ∈ order ->
     Forall (fun b => b.(Port.HostPort) = "") bindings) ->
  publishFlags order = [].
Proof.
  unfold publishFlags. induction order as [|[port bindings] order IH];
    intros Hall; [done |].
  simpl. rewrite publishFlag_all_empty, IH; [done | |].
  - intros p bs Hin. apply (Hall p bs). by apply list_elem_of_further.
  - apply (Hall port bindings). apply list_elem_of_here.
Qed.

Lemma envFlags_all_skipped env :
  Forall (fun e => shouldSkipEnv e = true) env -> envFlags env = [].
Proof.
  unfold envFlags. induction 1 as [|e env He _ IH]; [done |].
  simpl. by rewrite He.
Qed.

(** X2: every command starts with [docker run -d --name] and the
    normalized name, and ends with the image followed by the trailing
    arguments, each separated by one space. *)
Theorem generateRunCommand_starts_and_ends :
  forall order info, exists middle,
    generateRunCommand_in order info
    = "docker run -d --name " +:+ TrimPrefix info.(ContainerInfo.Name) "/"
      +:+ middle +:+ " "
      +:+ Join (info.(ContainerInfo.Config).(Config.Image)
                :: info.(ContainerInfo.Config).(Config.Cmd)) " ".
Proof.
  intros order info.
  set (mid := restartFlags
                info.(ContainerInfo.HostConfig).(HostConfig.RestartPolicy).(RestartPolicy.Name)
              ++ mountFlags info.(ContainerInfo.HostConfig).(HostConfig.Binds)
              ++ publishFlags order
              ++ envFlags info.(ContainerInfo.Config).(Config.Env)
              ++ (if info.(ContainerInfo.HostConfig).(HostConfig.Privileged)
                  then ["--privileged"] else [])
              ++ (if info.(ContainerInfo.HostConfig).(HostConfig.PublishAllPorts)
                  then ["-P"] else [])
              ++ networkFlags info.(ContainerInfo.HostConfig).(HostConfig.NetworkMode)).
  assert (generateRunCommand_parts order info
          = (generateRunCommand_prefix info ++ mid)
            ++ info.(ContainerInfo.Config).(Config.Image)
               :: info.(ContainerInfo.Config).(Config.Cmd)) as Hparts.
  { rewrite generateRunCommand_parts_layout. subst mid.
    unfold generateRunCommand_prefix. segments. }
  assert (Join (generateRunCommand_prefix info) " "
          = "docker run -d --name " +:+ TrimPrefix info.(ContainerInfo.Name) "/")
    as Hprefix.
  { unfold generateRunCommand_prefix. rewrite !Join_cons, TrimPrefix_separator.
    reflexivity. }
  exists (match mid with [] => "" | _ :: _ => " " +:+ Join mid " " end).
  unfold generateRunCommand_in. rewrite Hparts.
  rewrite Join_app by (unfold generateRunCommand_prefix; discriminate).
  destruct mid as [|m mid'].
  - rewrite app_nil_r, Hprefix. by rewrite !append_assoc3.
  - rewrite Join_app by (unfold generateRunCommand_prefix; discriminate).
    rewrite Hprefix. by rewrite !append_assoc3.
Qed.

(** X3: two calls on one descriptor return the same tokens, possibly in
    another order, and commands of the same length. *)
Theorem generateRunCommand_same_tokens :
  forall info order1 order2,
    rangeOrder info.(ContainerInfo.HostConfig).(HostConfig.PortBindings) order1 ->
    rangeOrder info.(ContainerInfo.HostConfig).(HostConfig.PortBindings) order2 ->
    generateRunCommand_parts order1 info ≡ₚ generateRunCommand_parts order2 info
    /\ String.length (generateRunCommand_in order1 info)
       = String.length (generateRunCommand_in order2 info).
Proof.
  intros info order1 order2 H1 H2.
  assert (generateRunCommand_parts order1 info
          ≡ₚ generateRunCommand_parts order2 info) as Hperm.
  { rewrite !generateRunCommand_parts_layout.
    assert (publishFlags order1 ≡ₚ publishFlags order2) as Hpub.
    { unfold publishFlags. apply Permutation_flat_map.
      unfold rangeOrder in H1, H2. by rewrite H1, H2. }
    repeat (apply Permutation_app; [reflexivity |]).
    apply Permutation_app; [exact Hpub | reflexivity]. }
  split; [exact Hperm |].
  unfold generateRunCommand_in. by apply length_Join_Permutation.
Qed.

(** An instance for X3: the two orders of the two published ports. *)
Lemma generateRunCommand_same_tokens_witness :
  String.length
    (generateRunCommand_in twoPortBindings twoPortDescriptor)
  = String.length
      (generateRunCommand_in
         [("443/tcp", [Port.mk "" "8443"]); ("80/tcp", [Port.mk "" "8080"])]
         twoPortDescriptor).
Proof.
  apply (generateRunCommand_same_tokens twoPortDescriptor).
  - by apply twoPortDescriptor_order.
  - apply twoPortDescriptor_order. apply perm_swap.
Defined.

(** X4: a descriptor without restart policy, binds, bound host ports,
    environment entries other than the skipped ones, privileges, network
    and trailing command gives the bare command
    [docker run -d --name <name> <image>]. *)
Theorem generateRunCommand_bare :
  forall order info,
    info.(ContainerInfo.HostConfig).(HostConfig.RestartPolicy).(RestartPolicy.Name)
    = "" ->
    info.(ContainerInfo.HostConfig).(HostConfig.Binds) = [] ->
    (forall port bindings,
       (port, bindings) ∈ order ->
       Forall (fun b => b.(Port.HostPort) = "") bindings) ->
    Forall (fun e => shouldSkipEnv e = true) info.(ContainerInfo.Config).(Config.Env) ->
    info.(ContainerInfo.HostConfig).(HostConfig.Privileged) = false ->
    info.(ContainerInfo.HostConfig).(HostConfig.PublishAllPorts) = false ->
    (info.(ContainerInfo.HostConfig).(HostConfig.NetworkMode) = ""
     \/ info.(ContainerInfo.HostConfig).(HostConfig.NetworkMode) = "default") ->
    info.(ContainerInfo.Config).(Config.Cmd) = [] ->
    generateRunCommand_in order info
    = "docker run -d --name " +:+ TrimPrefix info.(ContainerInfo.Name) "/"
      +:+ " " +:+ info.(ContainerInfo.Config).(Config.Image).
Proof.
  intros order info Hrestart Hbinds Hports Henv Hpriv Hpub Hmode Hcmd.
  unfold generateRunCommand_in.
  rewrite generateRunCommand_parts_layout, TrimPrefix_separator.
  rewrite Hrestart, Hbinds, Hpriv, Hpub, Hcmd.
  rewrite (publishFlags_unbound order Hports), (envFlags_all_skipped _ Henv).
  assert (networkFlags info.(ContainerInfo.HostConfig).(HostConfig.NetworkMode) = [])
    as ->.
  { unfold networkFlags. by destruct Hmode as [-> | ->]. }
  simpl app. rewrite !Join_cons. reflexivity.
Qed.

(** An instance for X4. *)
Lemma generateRunCommand_bare_witness :
  generateRunCommand_in [("53/udp", [Port.mk "" ""])] bareDescriptor
  = "docker run -d --name bare alpine:3".
Proof.
  apply (generateRunCommand_bare [("53/udp", [Port.mk "" ""])] bareDescriptor);
    try reflexivity.
  - intros port bindings Hin. apply list_elem_of_singleton in Hin.
    injection Hin as -> ->. by repeat constructor.
  - by repeat constructor.
  - by right.
Defined.

Lemma generateRunCommand_parts_withCmd order info :
  exists front,
    front <> []
    /\ forall cmd,
         generateRunCommand_parts order (withCmd info cmd) = front ++ cmd.
Proof.
  exists (generateRunCommand_prefix info
            ++ restartFlags
                 info.(ContainerInfo.HostConfig).(HostConfig.RestartPolicy).(RestartPolicy.Name)
            ++ mountFlags info.(ContainerInfo.HostConfig).(HostConfig.Binds)
            ++ publishFlags order
            ++ envFlags info.(ContainerInfo.Config).(Config.Env)
            ++ (if info.(ContainerInfo.HostConfig).(HostConfig.Privileged)
                then ["--privileged"] else [])
            ++ (if info.(ContainerInfo.HostConfig).(HostConfig.PublishAllPorts)
                then ["-P"] else [])
            ++ networkFlags info.(ContainerInfo.HostConfig).(HostConfig.NetworkMode)
            ++ [info.(ContainerInfo.Config).(Config.Image)]).
  split; [unfold generateRunCommand_prefix; discriminate |].
  intros cmd'. rewrite generateRunCommand_parts_layout.
  unfold generateRunCommand_prefix. segments.
Qed.

(** X6: the tokens are joined without quoting, so a trailing argument that
    contains a space gives the same command as the two arguments on either
    side of the space. *)
Theorem generateRunCommand_does_not_quote :
  forall order info a b rest,
    generateRunCommand_in order (withCmd info ((a +:+ " " +:+ b) :: rest))
    = generateRunCommand_in order (withCmd info (a :: b :: rest)).
Proof.
  intros order info a b rest. unfold generateRunCommand_in.
  destruct (generateRunCommand_parts_withCmd order info) as (front & Hne & Hparts).
  rewrite !Hparts, !Join_app by done. by rewrite Join_tokens_with_space.
Qed.

(** The text before the first [c] is determined. *)
Lemma append_byte_inj (k1 k2 v1 v2 : string) (c : ascii) :
  hasByte k1 c = false -> hasByte k2 c = false ->
  k1 +:+ String c v1 = k2 +:+ String c v2 -> k1 = k2.
Proof.
  revert k2. induction k1 as [|x k1 IH]; intros [|y k2] H1 H2 Heq.
  - done.
  - change (String c v1 = String y (k2 +:+ String c v2)) in Heq.
    injection Heq as -> _. simpl in H2. by rewrite Ascii.eqb_refl in H2.
  - change (String x (k1 +:+ String c v1) = String c v2) in Heq.
    injection Heq as -> _. simpl in H1. by rewrite Ascii.eqb_refl in H1.
  - change (String x (k1 +:+ String c v1) = String y (k2 +:+ String c v2)) in Heq.
    injection Heq as -> Heq. simpl in H1, H2.
    apply orb_false_iff in H1 as [_ H1]. apply orb_false_iff in H2 as [_ H2].
    by rewrite (IH k2 H1 H2 Heq).
Qed.

(** X5: an entry [key=value] is skipped exactly when its key, the text
    before the first [=], is one of PATH, HOSTNAME, HOME, TERM, whatever the
    value is; an entry without [=] is never skipped. *)
Theorem shouldSkipEnv_by_key :
  (forall key value,
     hasByte key "="%char = false ->
     (shouldSkipEnv (key +:+ "=" +:+ value) = true
      <-> key ∈ ["PATH"; "HOSTNAME"; "HOME"; "TERM"]))
  /\ (forall e, hasByte e "="%char = false -> shouldSkipEnv e = false).
Proof.
  assert (forall k, k ∈ denyList -> hasByte k "="%char = false) as Hdeny.
  { intros k Hk. unfold denyList in Hk.
    repeat (apply elem_of_cons in Hk as [-> | Hk]; [reflexivity |]).
    by apply elem_of_nil in Hk. }
  split.
  - intros key value Hkey. rewrite shouldSkipEnv_spec. split.
    + intros (k & v & Hk & Heq).
      change (key +:+ String "=" value = k +:+ String "=" v) in Heq.
      by rewrite (append_byte_inj key k value v "=" Hkey (Hdeny k Hk) Heq).
    + intros Hin. by exists key, value.
  - intros e He. apply not_true_is_false. intros Hskip.
    apply shouldSkipEnv_spec in Hskip as (k & v & _ & ->).
    change (hasByte (k +:+ String "=" v) "=" = false) in He.
    rewrite hasByte_append in He. apply orb_false_iff in He as [_ He].
    simpl in He. discriminate.
Qed.

(** ** The stages of the pipeline *)

Ltac run_step_eq exec :=
  match goal with
  | |- context [exec ?argv ?w] =>
      let H := fresh "Hexec" in
      destruct (exec argv w) as [[? [?|]] ?] eqn:H
  end;
  cbn [fst snd app].

Section Stages.
Context {W : Type}.
Variable exec_Command : list string -> W -> (string * option error) * W.
Variable json_Unmarshal : string -> list ContainerInfo.t + error.
Variable strings_ToLower strings_TrimSpace : string -> string.
Variable mapRange : gmap string (list Port.t) -> list (string * list Port.t).
Variable os_Args : list string.
Variable os_Stdin : string * error.

(** Every run of [main] ends in one of the outcomes. *)
Lemma runMain_Outcome (w : W) :
  Outcome exec_Command json_Unmarshal strings_ToLower strings_TrimSpace
    mapRange os_Args os_Stdin w
    (runMain exec_Command json_Unmarshal strings_ToLower strings_TrimSpace
       mapRange os_Args os_Stdin w).
Proof.
  cbv beta iota zeta delta
    [runMain main bind ret command getContainerInfo stopAndRemoveContainer
     pullLatestImage executeCommand world events].
  destruct (Nat.ltb_spec (length os_Args) 2) as [Hargs | Hargs];
    [by apply Outcome_usage |].
  run_step_eq exec_Command; [by eapply Outcome_inspect_failed |].
  destruct (json_Unmarshal _) as [[|info others] | e] eqn:Hjson;
    cbn [fst snd app];
    [by eapply Outcome_not_found | | by eapply Outcome_decode_failed].
  run_step_eq exec_Command; [by eapply Outcome_stop_failed |].
  run_step_eq exec_Command; [by eapply Outcome_rm_failed |].
  run_step_eq exec_Command; [by eapply Outcome_pull_failed |].
  match goal with
  | |- context [confirmExecution ?l ?t ?i ?r] =>
      pose proof (confirmExecution_events l t i r) as Hev;
      pose proof (confirmExecution_answer l t i r) as Hans;
      destruct (confirmExecution l t i r) as [confirmed r']
  end.
  simpl in Hev, Hans. subst r'.
  destruct confirmed; cbn [fst snd app negb events world].
  - match goal with
    | |- context [exec_Command ("sh" :: ?argv) ?w4] =>
        destruct (exec_Command ("sh" :: argv) w4) as [[out5 err] w5] eqn:Hsh
    end.
    cbn [fst snd app].
    replace (match err with Some _ => fun r : Run => (1%Z, r)
                          | None => fun r : Run => (0%Z, r) end
               {| world := w5; events := _ |})
      with (match err with Some _ => 1%Z | None => 0%Z end,
            mkRun w5 [Exec ["docker"; "inspect"; nth 1 os_Args ""];
                      Exec ["docker"; "stop"; nth 1 os_Args ""];
                      Exec ["docker"; "rm"; nth 1 os_Args ""];
                      Exec ["docker"; "pull"; info.(ContainerInfo.Config).(Config.Image)];
                      Prompt;
                      Exec ["sh"; "-c";
                            generateRunCommand_in
                              (mapRange
                                 info.(ContainerInfo.HostConfig).(HostConfig.PortBindings))
                              info]])
      by (by destruct err).
    eapply Outcome_executed; try done. by apply Hans.
  - eapply Outcome_declined; try done.
    intros Hyes. apply Hans in Hyes. discriminate.
Qed.
End Stages.

(** C8: the run is confirmed exactly when standard input delivers a full
    line that, lowered and trimmed, is [y] or [yes]; a read that ends before
    the end of a line is a decline; a run that is not confirmed starts no
    shell for the synthesized command; and when the inspection, the stop,
    the removal and the pull have succeeded and the run is not confirmed, it
    ends after the prompt with exit status 0. *)
Theorem confirmation_accepts_only_y_or_yes :
  forall (W : Type)
         (exec_Command : list string -> W -> (string * option error) * W)
         (json_Unmarshal : string -> list ContainerInfo.t + error)
         (strings_ToLower strings_TrimSpace : string -> string)
         (mapRange : gmap string (list Port.t) -> list (string * list Port.t))
         (os_Args : list string) (os_Stdin : string * error),
    (forall r : Run (W := W),
       (confirmExecution strings_ToLower strings_TrimSpace os_Stdin r).1 = true
       <-> exists line rest,
             os_Stdin.1 = line +:+ String newline rest
             /\ hasByte line newline = false
             /\ (strings_TrimSpace (strings_ToLower (line +:+ String newline "")) = "y"
                 \/ strings_TrimSpace (strings_ToLower (line +:+ String newline ""))
                    = "yes"))
    /\ (forall r : Run (W := W),
          hasByte os_Stdin.1 newline = false ->
          (confirmExecution strings_ToLower strings_TrimSpace os_Stdin r).1 = false)
    /\ (forall w : W,
          let run := runMain exec_Command json_Unmarshal strings_ToLower
                       strings_TrimSpace mapRange os_Args os_Stdin w in
          (confirmExecution strings_ToLower strings_TrimSpace os_Stdin
             (mkRun w [])).1 = false ->
          (forall cmd, Exec ["sh"; "-c"; cmd] ∉ run.2.(events))
          /\ (Prompt ∈ run.2.(events) -> run.1 = 0%Z))
    /\ (forall (w : W) out1 w1 info others out2 w2 out3 w3 out4 w4,
          2 <= length os_Args ->
          exec_Command ["docker"; "inspect"; nth 1 os_Args ""] w
          = ((out1, None), w1) ->
          json_Unmarshal out1 = inl (info :: others) ->
          exec_Command ["docker"; "stop"; nth 1 os_Args ""] w1
          = ((out2, None), w2) ->
          exec_Command ["docker"; "rm"; nth 1 os_Args ""] w2
          = ((out3, None), w3) ->
          exec_Command
            ["docker"; "pull"; info.(ContainerInfo.Config).(Config.Image)] w3
          = ((out4, None), w4) ->
          (confirmExecution strings_ToLower strings_TrimSpace os_Stdin
             (mkRun w [])).1 = false ->
          runMain exec_Command json_Unmarshal strings_ToLower strings_TrimSpace
            mapRange os_Args os_Stdin w
          = (0%Z,
             mkRun w4
               [Exec ["docker"; "inspect"; nth 1 os_Args ""];
                Exec ["docker"; "stop"; nth 1 os_Args ""];
                Exec ["docker"; "rm"; nth 1 os_Args ""];
                Exec ["docker"; "pull"; info.(ContainerInfo.Config).(Config.Image)];
                Prompt])).
Proof.
  intros W exec_Command json_Unmarshal strings_ToLower strings_TrimSpace
    mapRange os_Args os_Stdin.
  assert (forall w : W,
            (confirmExecution strings_ToLower strings_TrimSpace os_Stdin
               (mkRun w [])).1 = false ->
            ~ answersYes strings_ToLower strings_TrimSpace os_Stdin) as Hno.
  { intros w Hdeclined Hyes.
    apply (confirmExecution_answer (W := W)) with (r := mkRun w []) in Hyes.
    congruence. }
  split; [| split; [| split]].
  - intros r. apply confirmExecution_answer.
  - intros r Hline.
    unfold confirmExecution, bind, emit, ret.
    change "010"%char with newline.
    by rewrite (ReadString_fails _ _ _ Hline).
  - intros w run Hdeclined. apply main_declined. by apply (Hno w).
  - intros w out1 w1 info others out2 w2 out3 w3 out4 w4
      Hargs Hinspect Hjson Hstop Hrm Hpull Hdeclined.
    apply Hno in Hdeclined.
    destruct (runMain_Outcome exec_Command json_Unmarshal strings_ToLower
                strings_TrimSpace mapRange os_Args os_Stdin w);
      try lia;
      repeat match goal with
             | H1 : ?f = _, H2 : ?f = _ |- _ => rewrite H1 in H2; simplify_eq
             end;
      done.
Qed.

(** An instance for C8: the operator answers [n] to the prompt for the
    container of the end-to-end example, and the run ends with status 0
    without a shell. *)
Lemma confirmation_accepts_only_y_or_yes_witness :
  runMain obliging (decodesTo [appDescriptor]) asciiToLower asciiTrimSpace
    anyOrder ["drun"; "app"] ("n" +:+ String newline "", "EOF") tt
  = (0%Z,
     mkRun tt
       [Exec ["docker"; "inspect"; "app"]; Exec ["docker"; "stop"; "app"];
        Exec ["docker"; "rm"; "app"]; Exec ["docker"; "pull"; "app:latest"];
        Prompt]).
Proof.
  apply (proj2 (proj2 (proj2 (confirmation_accepts_only_y_or_yes
                                unit obliging (decodesTo [appDescriptor])
                                asciiToLower asciiTrimSpace anyOrder
                                ["drun"; "app"]
                                ("n" +:+ String newline "", "EOF"))))
           tt "" tt appDescriptor [] "" tt "" tt "" tt);
    reflexivity.
Defined.

(** X7: the loader starts exactly one external command, the inspection of
    the named container, whatever comes of it; it succeeds exactly when the
    inspection succeeds and its output decodes to a non-empty array; a failed
    inspection is reported as such without decoding anything, and an output
    that does not decode is reported as a parse failure. *)
Theorem getContainerInfo_outcomes :
  forall (W : Type)
         (exec_Command : list string -> W -> (string * option error) * W)
         (json_Unmarshal : string -> list ContainerInfo.t + error)
         (containerName : string) (r : Run (W := W)),
    let inspected :=
      exec_Command ["docker"; "inspect"; containerName] r.(world) in
    let loaded := getContainerInfo exec_Command json_Unmarshal containerName r in
    loaded.2
    = mkRun inspected.2 (r.(events) ++ [Exec ["docker"; "inspect"; containerName]])
    /\ (forall info,
          loaded.1 = inl info
          <-> inspected.1.2 = None
              /\ exists others, json_Unmarshal inspected.1.1 = inl (info :: others))
    /\ (forall e,
          inspected.1.2 = Some e ->
          loaded.1 = inr ("failed to inspect container: " +:+ e))
    /\ (forall e,
          inspected.1.2 = None ->
          json_Unmarshal inspected.1.1 = inr e ->
          loaded.1 = inr ("failed to parse container info: " +:+ e)).
Proof.
  intros W exec_Command json_Unmarshal containerName r inspected loaded.
  subst inspected loaded.
  cbv beta iota zeta delta [getContainerInfo bind ret command].
  destruct (exec_Command _ (world r)) as [[output [e|]] w']; cbn [fst snd].
  - split; [reflexivity |]. split; [| split].
    + intros info. split; [discriminate | intros [? _]; discriminate].
    + by intros e' [= ->].
    + intros e' ?. discriminate.
  - destruct (json_Unmarshal output) as [[|c cs] | e]; cbn [fst snd];
      (split; [reflexivity |]); (split; [| split]);
      try (intros e' ?; discriminate); try (intros e' _ ?; discriminate).
    + intros info. split; [discriminate | intros [_ [others ?]]; discriminate].
    + intros info. split.
      * intros [= ->]. split; [done | by exists cs].
      * by intros [_ [others [= -> _]]].
    + intros info. split; [discriminate | intros [_ [others ?]]; discriminate].
    + by intros e' _ [= ->].
Qed.

(** X8: the container is removed only after it was stopped: when the stop
    fails nothing else is started and the failure is reported as a failure
    to stop; when it succeeds the removal is started next, and its failure
    is reported as a failure to remove; the stage succeeds exactly when both
    commands succeed. *)
Theorem stopAndRemoveContainer_stops_first :
  forall (W : Type)
         (exec_Command : list string -> W -> (string * option error) * W)
         (containerName : string) (r : Run (W := W)),
    let stopped := exec_Command ["docker"; "stop"; containerName] r.(world) in
    let removed := exec_Command ["docker"; "rm"; containerName] stopped.2 in
    let done := stopAndRemoveContainer exec_Command containerName r in
    (forall e,
       stopped.1.2 = Some e ->
       done = (Some ("failed to stop container: " +:+ e),
               mkRun stopped.2
                 (r.(events) ++ [Exec ["docker"; "stop"; containerName]])))
    /\ (stopped.1.2 = None ->
        done = (match removed.1.2 with
                | Some e => Some ("failed to remove container: " +:+ e)
                | None => None
                end,
                mkRun removed.2
                  (r.(events) ++ [Exec ["docker"; "stop"; containerName];
                                  Exec ["docker"; "rm"; containerName]])))
    /\ (done.1 = None <-> stopped.1.2 = None /\ removed.1.2 = None).
Proof.
  intros W exec_Command containerName r stopped removed done.
  subst stopped removed done.
  cbv beta iota zeta delta [stopAndRemoveContainer bind ret command world events].
  destruct (exec_Command ["docker"; "stop"; containerName] _)
    as [[out2 [e2|]] w2]; cbn [fst snd].
  - repeat split; try discriminate.
    + by intros e [= ->].
    + intros [? _]. discriminate.
  - destruct (exec_Command ["docker"; "rm"; containerName] w2)
      as [[out3 [e3|]] w3]; cbn [fst snd];
      rewrite <- ?app_assoc; repeat split; try discriminate; try done.
    intros [_ ?]. discriminate.
Qed.

Section Runs.
Context {W : Type}.
Variable exec_Command : list string -> W -> (string * option error) * W.
Variable json_Unmarshal : string -> list ContainerInfo.t + error.
Variable strings_ToLower strings_TrimSpace : string -> string.
Variable mapRange : gmap string (list Port.t) -> list (string * list Port.t).
Variable os_Args : list string.
Variable os_Stdin : string * error.

(** X9: whatever the outside world does, a run starts its external
    commands in one order and stops at the first failure: its events are an
    initial part of inspect, stop, remove (all three of the container named
    on the command line), pull of an image, prompt, shell command. *)
Theorem main_events_in_order :
  forall w : W, exists image command,
    (runMain exec_Command json_Unmarshal strings_ToLower strings_TrimSpace
       mapRange os_Args os_Stdin w).2.(events)
    `prefix_of` [Exec ["docker"; "inspect"; nth 1 os_Args ""];
                 Exec ["docker"; "stop"; nth 1 os_Args ""];
                 Exec ["docker"; "rm"; nth 1 os_Args ""];
                 Exec ["docker"; "pull"; image];
                 Prompt;
                 Exec ["sh"; "-c"; command]].
Proof.
  intros w.
  destruct (runMain_Outcome exec_Command json_Unmarshal strings_ToLower
              strings_TrimSpace mapRange os_Args os_Stdin w);
    cbn [snd events];
    try (exists "", ""; eexists; reflexivity);
    try (eexists _, ""; eexists; reflexivity);
    eexists _, _; eexists; reflexivity.
Qed.

(** X10: the exit status is 0 or 1; without a container name on the command
    line the run ends with status 1 before any command is started; and a run
    ends with status 0 only after it has inspected, stopped and removed the
    container, pulled an image and shown the prompt, with at most the shell
    command after that. *)
Theorem main_exit_status :
  forall w : W,
    ((runMain exec_Command json_Unmarshal strings_ToLower strings_TrimSpace
       mapRange os_Args os_Stdin w).1 = 0%Z \/ (runMain exec_Command json_Unmarshal strings_ToLower strings_TrimSpace
       mapRange os_Args os_Stdin w).1 = 1%Z)
    /\ (length os_Args < 2 ->
        runMain exec_Command json_Unmarshal strings_ToLower strings_TrimSpace
          mapRange os_Args os_Stdin w
        = (1%Z, mkRun w []))
    /\ ((runMain exec_Command json_Unmarshal strings_ToLower strings_TrimSpace
       mapRange os_Args os_Stdin w).1 = 0%Z ->
        2 <= length os_Args
        /\ exists image rest,
             (runMain exec_Command json_Unmarshal strings_ToLower strings_TrimSpace
       mapRange os_Args os_Stdin w).2.(events)
             = [Exec ["docker"; "inspect"; nth 1 os_Args ""];
                Exec ["docker"; "stop"; nth 1 os_Args ""];
                Exec ["docker"; "rm"; nth 1 os_Args ""];
                Exec ["docker"; "pull"; image];
                Prompt] ++ rest
             /\ (rest = [] \/ exists command, rest = [Exec ["sh"; "-c"; command]])).
Proof.
  intros w.
  destruct (runMain_Outcome exec_Command json_Unmarshal strings_ToLower
              strings_TrimSpace mapRange os_Args os_Stdin w);
    cbn [fst snd events];
    (split; [| split]);
    try (by right); try (by left); try (intros; lia); try discriminate;
    try done.
  - intros _. split; [done |]. eexists _, []. split; [reflexivity | by left].
  - destruct err; [by right | by left].
  - intros _. split; [done |]. eexists _, [_]. split; [reflexivity |].
    right. by eexists.
Qed.

(** X11: when the pull fails after the container was stopped and removed,
    the run ends there with status 1: nothing is started again and nothing
    is restored. *)
Theorem main_pull_failure_is_final :
  forall (w : W) out1 w1 info others out2 w2 out3 w3 out4 e w4,
    2 <= length os_Args ->
    exec_Command ["docker"; "inspect"; nth 1 os_Args ""] w = ((out1, None), w1) ->
    json_Unmarshal out1 = inl (info :: others) ->
    exec_Command ["docker"; "stop"; nth 1 os_Args ""] w1 = ((out2, None), w2) ->
    exec_Command ["docker"; "rm"; nth 1 os_Args ""] w2 = ((out3, None), w3) ->
    exec_Command ["docker"; "pull"; info.(ContainerInfo.Config).(Config.Image)] w3
    = ((out4, Some e), w4) ->
    runMain exec_Command json_Unmarshal strings_ToLower strings_TrimSpace
      mapRange os_Args os_Stdin w
    = (1%Z,
       mkRun w4 [Exec ["docker"; "inspect"; nth 1 os_Args ""];
                 Exec ["docker"; "stop"; nth 1 os_Args ""];
                 Exec ["docker"; "rm"; nth 1 os_Args ""];
                 Exec ["docker"; "pull"; info.(ContainerInfo.Config).(Config.Image)]]).
Proof.
  intros w out1 w1 info others out2 w2 out3 w3 out4 e w4
    Hargs Hinspect Hjson Hstop Hrm Hpull.
  destruct (runMain_Outcome exec_Command json_Unmarshal strings_ToLower
              strings_TrimSpace mapRange os_Args os_Stdin w);
    try lia;
    repeat match goal with
           | H1 : ?f = _, H2 : ?f = _ |- _ => rewrite H1 in H2; simplify_eq
           end;
    done.
Qed.

(** X12: when every stage succeeds and the operator confirms, the run
    hands to the shell the command synthesized from the first inspected
    container, as its last event, and its exit status is 0 exactly when that
    command succeeds; the command is one of the outputs of the synthesizer
    when the map is iterated in an order of its entries. *)
Theorem main_runs_synthesized_command :
  forall (w : W) out1 w1 info others out2 w2 out3 w3 out4 w4 out5 err w5,
    2 <= length os_Args ->
    exec_Command ["docker"; "inspect"; nth 1 os_Args ""] w = ((out1, None), w1) ->
    json_Unmarshal out1 = inl (info :: others) ->
    exec_Command ["docker"; "stop"; nth 1 os_Args ""] w1 = ((out2, None), w2) ->
    exec_Command ["docker"; "rm"; nth 1 os_Args ""] w2 = ((out3, None), w3) ->
    exec_Command ["docker"; "pull"; info.(ContainerInfo.Config).(Config.Image)] w3
    = ((out4, None), w4) ->
    answersYes strings_ToLower strings_TrimSpace os_Stdin ->
    let command :=
      generateRunCommand_in
        (mapRange info.(ContainerInfo.HostConfig).(HostConfig.PortBindings)) info in
    exec_Command ["sh"; "-c"; command] w4 = ((out5, err), w5) ->
    runMain exec_Command json_Unmarshal strings_ToLower strings_TrimSpace
      mapRange os_Args os_Stdin w
    = (match err with Some _ => 1%Z | None => 0%Z end,
       mkRun w5 [Exec ["docker"; "inspect"; nth 1 os_Args ""];
                 Exec ["docker"; "stop"; nth 1 os_Args ""];
                 Exec ["docker"; "rm"; nth 1 os_Args ""];
                 Exec ["docker"; "pull"; info.(ContainerInfo.Config).(Config.Image)];
                 Prompt;
                 Exec ["sh"; "-c"; command]])
    /\ (rangeOrder info.(ContainerInfo.HostConfig).(HostConfig.PortBindings)
          (mapRange info.(ContainerInfo.HostConfig).(HostConfig.PortBindings)) ->
        generateRunCommand info command).
Proof.
  intros w out1 w1 info others out2 w2 out3 w3 out4 w4 out5 err w5
    Hargs Hinspect Hjson Hstop Hrm Hpull Hyes command Hsh.
  subst command. split; [| by constructor].
  destruct (runMain_Outcome exec_Command json_Unmarshal strings_ToLower
              strings_TrimSpace mapRange os_Args os_Stdin w);
    try lia;
    repeat match goal with
           | H1 : ?f = _, H2 : ?f = _ |- _ => rewrite H1 in H2; simplify_eq
           end;
    done.
Qed.
End Runs.

(** An instance for X11: the pull of [app:latest] fails. *)
Lemma main_pull_failure_is_final_witness :
  runMain (failingAt "pull") (decodesTo [appDescriptor]) asciiToLower
    asciiTrimSpace anyOrder ["drun"; "app"] ("", "EOF") tt
  = (1%Z,
     mkRun tt
       [Exec ["docker"; "inspect"; "app"]; Exec ["docker"; "stop"; "app"];
        Exec ["docker"; "rm"; "app"]; Exec ["docker"; "pull"; "app:latest"]]).
Proof.
  apply (main_pull_failure_is_final (failingAt "pull") (decodesTo [appDescriptor])
           asciiToLower asciiTrimSpace anyOrder ["drun"; "app"] ("", "EOF")
           tt "" tt appDescriptor [] "" tt "" tt "" "exit status 1" tt);
    reflexivity.
Defined.

(** An instance for X12: every command succeeds and the operator answers
    [yes]. *)
Lemma main_runs_synthesized_command_witness :
  runMain obliging (decodesTo [appDescriptor]) asciiToLower asciiTrimSpace
    anyOrder ["drun"; "app"] ("yes" +:+ String newline "", "EOF") tt
  = (0%Z,
     mkRun tt
       [Exec ["docker"; "inspect"; "app"]; Exec ["docker"; "stop"; "app"];
        Exec ["docker"; "rm"; "app"]; Exec ["docker"; "pull"; "app:latest"];
        Prompt;
        Exec ["sh"; "-c";
              generateRunCommand_in
                (anyOrder
                   appDescriptor.(ContainerInfo.HostConfig).(HostConfig.PortBindings))
                appDescriptor]]).
Proof.
  apply (proj1 (main_runs_synthesized_command obliging (decodesTo [appDescriptor])
                  asciiToLower asciiTrimSpace anyOrder ["drun"; "app"]
                  ("yes" +:+ String newline "", "EOF")
                  tt "" tt appDescriptor [] "" tt "" tt "" tt "" None tt
                  ltac:(simpl; lia) eq_refl eq_refl eq_refl eq_refl eq_refl
                  ltac:(exists "yes", ""; repeat split; by right)
                  eq_refl)).
Defined.

(** ** The confirmation line *)

(** X13: the confirmation shows the prompt once and changes nothing else,
    and its answer depends only on the first line of standard input: what
    follows the first line feed, and how the input ends, make no
    difference. *)
Theorem confirmExecution_reads_one_line :
  forall (W : Type) (strings_ToLower strings_TrimSpace : string -> string)
         (line rest rest' : string) (ends ends' : error) (r r' : Run (W := W)),
    hasByte line newline = false ->
    (confirmExecution strings_ToLower strings_TrimSpace
       (line +:+ String newline rest, ends) r).1
    = (confirmExecution strings_ToLower strings_TrimSpace
         (line +:+ String newline rest', ends') r').1
    /\ (confirmExecution strings_ToLower strings_TrimSpace
          (line +:+ String newline rest, ends) r).2
       = mkRun r.(world) (r.(events) ++ [Prompt]).
Proof.
  intros W strings_ToLower strings_TrimSpace line rest rest' ends ends' r r' Hline.
  assert (forall tail e,
            ReadString (line +:+ String newline tail) e newline
            = (line +:+ String newline "", None)) as Hread.
  { intros tail e. apply ReadString_line. by exists line, tail. }
  split; [| apply confirmExecution_events].
  unfold confirmExecution, bind, emit, ret. cbn [fst snd].
  change "010"%char with newline. by rewrite !Hread.
Qed.

(** An instance for X13. *)
Lemma confirmExecution_reads_one_line_witness :
  (confirmExecution asciiToLower asciiTrimSpace
     ("y" +:+ String newline "no", "EOF") (mkRun tt [])).1
  = (confirmExecution asciiToLower asciiTrimSpace
       ("y" +:+ String newline "", "closed") (mkRun tt [Prompt])).1.
Proof.
  apply (confirmExecution_reads_one_line unit asciiToLower asciiTrimSpace
           "y" "no" "" "EOF" "closed" (mkRun tt []) (mkRun tt [Prompt])).
  reflexivity.
Defined.

Lemma asciiLower_space (c : ascii) : asciiSpace c = true -> asciiLower c = c.
Proof. destruct c as [[] [] [] [] [] [] [] []]; by cbv. Qed.

Lemma allSpace_append (a b : string) :
  allSpace (a +:+ b) = allSpace a && allSpace b.
Proof.
  induction a as [|c a IH]; [done |].
  rewrite append_String. simpl. by rewrite IH, andb_assoc.
Qed.

Lemma asciiToLower_append (a b : string) :
  asciiToLower (a +:+ b) = asciiToLower a +:+ asciiToLower b.
Proof.
  induction a as [|c a IH]; [done |].
  rewrite append_String. simpl. by rewrite IH.
Qed.

Lemma asciiToLower_allSpace (s : string) :
  allSpace s = true -> asciiToLower s = s.
Proof.
  induction s as [|c s IH]; [done |]. simpl.
  intros [Hc Hs]%andb_true_iff. by rewrite asciiLower_space, IH.
Qed.

Lemma trimLeft_allSpace (ws s : string) :
  allSpace ws = true -> trimLeft (ws +:+ s) = trimLeft s.
Proof.
  induction ws as [|c ws IH]; [done |]. simpl.
  intros [Hc Hs]%andb_true_iff. rewrite ?append_String. simpl.
  by rewrite Hc, IH.
Qed.

Lemma trimRight_allSpace (ws : string) :
  allSpace ws = true -> trimRight ws = "".
Proof.
  induction ws as [|c ws IH]; [done |]. simpl.
  intros [Hc Hs]%andb_true_iff. by rewrite IH, Hc.
Qed.

Lemma trimRight_append_allSpace (s ws : string) :
  allSpace ws = true -> trimRight (s +:+ ws) = trimRight s.
Proof.
  intros Hws. induction s as [|c s IH].
  - by apply trimRight_allSpace.
  - rewrite append_String. simpl. by rewrite IH.
Qed.

(** X14: on ASCII input, a first line that consists of white space, then
    [y] or [yes] in any mix of upper and lower case, then white space (a
    carriage return before the line feed included) is a confirmation. *)
Theorem confirmExecution_accepts_ascii_yes :
  forall (W : Type) (pre word post rest : string) (ends : error)
         (r : Run (W := W)),
    allSpace pre = true ->
    allSpace post = true ->
    hasByte (pre +:+ word +:+ post) newline = false ->
    asciiToLower word = "y" \/ asciiToLower word = "yes" ->
    (confirmExecution asciiToLower asciiTrimSpace
       (pre +:+ word +:+ post +:+ String newline rest, ends) r).1 = true.
Proof.
  intros W pre word post rest ends r Hpre Hpost Hline Hword.
  apply confirmExecution_answer.
  exists (pre +:+ word +:+ post), rest. cbn [fst].
  split; [by rewrite !append_assoc3 |]. split; [done |].
  assert (allSpace (post +:+ String newline "") = true) as Htail.
  { rewrite allSpace_append, Hpost. reflexivity. }
  assert (asciiTrimSpace
            (asciiToLower ((pre +:+ word +:+ post) +:+ String newline ""))
          = trimRight (trimLeft (asciiToLower word +:+ post +:+ String newline "")))
    as ->.
  { rewrite !append_assoc3, !asciiToLower_append.
    rewrite (asciiToLower_allSpace pre Hpre).
    rewrite <- asciiToLower_append, (asciiToLower_allSpace _ Htail).
    unfold asciiTrimSpace. by rewrite trimLeft_allSpace. }
  destruct Hword as [-> | ->]; [left | right].
  - change (trimLeft ("y" +:+ post +:+ String newline ""))
      with ("y" +:+ post +:+ String newline "").
    by rewrite trimRight_append_allSpace.
  - change (trimLeft ("yes" +:+ post +:+ String newline ""))
      with ("yes" +:+ post +:+ String newline "").
    by rewrite trimRight_append_allSpace.
Qed.

(** An instance for X14: [  Yes], a blank and a carriage return. *)
Lemma confirmExecution_accepts_ascii_yes_witness :
  (confirmExecution asciiToLower asciiTrimSpace
     ("  " +:+ "Yes" +:+ String " "%char (String "013"%char "")
      +:+ String newline "docker ps", "EOF")
     (mkRun tt [])).1 = true.
Proof.
  apply (confirmExecution_accepts_ascii_yes unit "  " "Yes"
           (String " "%char (String "013"%char "")) "docker ps" "EOF"
           (mkRun tt []));
    try reflexivity.
  by right.
Defined.
